(** * Case-law review pipeline: model invoker, JSON extraction, orchestration

    A shallow embedding of [src/lib/llm-client.ts] (the flex-aware
    [callOpenAI]) and of the pipeline module ([processDocumentStep0],
    [processStep1] .. [processStep4], [processDocumentsPipeline]).

    Conventions of the embedding.
    - A JavaScript string is the list of its UTF-16 code units ([jsstr]).
    - Token counts are integers ([Z]); monetary amounts are exact rationals
      ([Q]); the rounding of IEEE doubles is not part of the model.
    - A thrown [Error] is the record [Exn]; code that may throw returns
      [Result A]; [try]/[catch] is a [match] on that result.
    - External collaborators (mammoth, the prompt files, the provider, the
      file system) and the engine builtins [JSON.parse]/[JSON.stringify]
      are fields of the record [Env]; every theorem quantified over [env]
      holds whatever they answer.
    - [Promise.all] over [map] is modelled by the list of the settled
      results in input order; the provider seen by each call is indexed by
      the step and by the position of the call inside the step.
    - The optional [onProgress] sink is not modelled (no sink, or a sink
      that returns normally). *)

From Stdlib Require Import String Ascii.
From Stdlib Require Import List NArith ZArith QArith Bool Lia.
From Stdlib Require Import DecimalString.
Import ListNotations.

Set Warnings "-register-all".
Local Open Scope list_scope.

(* ===================================================================== *)
(** * JavaScript strings *)
(* ===================================================================== *)

Module JsString.

Definition jsstr := list N.

(** Decoding of the UTF-8 bytes of a literal of this file into code units
    (one to three bytes per character: the Basic Multilingual Plane). *)
Fixpoint decodeUtf8 (bs : list N) : jsstr :=
  match bs with
  | [] => []
  | b0 :: t =>
      if (b0 <? 128)%N then b0 :: decodeUtf8 t
      else if (b0 <? 224)%N then
        match t with
        | b1 :: t1 => ((b0 - 192) * 64 + (b1 - 128))%N :: decodeUtf8 t1
        | [] => [b0]
        end
      else
        match t with
        | b1 :: b2 :: t2 =>
            ((b0 - 224) * 4096 + (b1 - 128) * 64 + (b2 - 128))%N :: decodeUtf8 t2
        | _ => b0 :: t
        end
  end.

Definition js (s : String.string) : jsstr :=
  decodeUtf8 (map N_of_ascii (String.list_ascii_of_string s)).

Definition NL : jsstr := [10%N].

Definition eqb (a b : jsstr) : bool :=
  if list_eq_dec N.eq_dec a b then true else false.

(** ECMAScript WhiteSpace and LineTerminator code units: the set used both
    by [String.prototype.trim] and by the regular-expression class [\s]. *)
Definition isWhiteSpace (c : N) : bool :=
  ((9 <=? c) && (c <=? 13) || (c =? 32) || (c =? 160) || (c =? 5760)
   || (8192 <=? c) && (c <=? 8202) || (c =? 8232) || (c =? 8233)
   || (c =? 8239) || (c =? 8287) || (c =? 12288) || (c =? 65279))%N.

Fixpoint trimStart (s : jsstr) : jsstr :=
  match s with
  | c :: t => if isWhiteSpace c then trimStart t else s
  | [] => []
  end.

Definition trimEnd (s : jsstr) : jsstr := rev (trimStart (rev s)).

Definition trim (s : jsstr) : jsstr := trimEnd (trimStart s).

(** [stripPrefix ci p s]: [s] without its prefix [p], when it has it;
    with [ci] an ASCII letter of [p] also matches its upper-case form (the
    canonicalisation of the [i] flag on the letters used here). *)
Definition chrMatches (ci : bool) (p c : N) : bool :=
  ((c =? p) || ci && (97 <=? p) && (p <=? 122) && (c =? p - 32))%N.

Fixpoint stripPrefix (ci : bool) (p s : jsstr) : option jsstr :=
  match p with
  | [] => Some s
  | x :: p' =>
      match s with
      | c :: s' => if chrMatches ci x c then stripPrefix ci p' s' else None
      | [] => None
      end
  end.

(** [String.prototype.includes]. *)
Fixpoint includes (p s : jsstr) : bool :=
  match stripPrefix false p s with
  | Some _ => true
  | None => match s with
            | _ :: t => includes p t
            | [] => false
            end
  end.

(** [substring(0, n)]. *)
Definition substring0 (n : nat) (s : jsstr) : jsstr := firstn n s.

(** Decimal rendering of a natural number, as in a template literal. *)
Definition decimal (n : nat) : jsstr :=
  map N_of_ascii
    (String.list_ascii_of_string (NilZero.string_of_uint (Nat.to_uint n))).

End JsString.
Import JsString.

(* ===================================================================== *)
(** * The regular expressions of the extractor

    A backtracking matcher for the fragment the source uses: literal text,
    the greedy and lazy star of a one-character class, the end anchor,
    the [i] flag, and an optional start anchor.  A match reports the text
    consumed by each item, so that the capture group of
    [/```json\s*([\s\S]*?)\s*```/] is the text of its third item. *)
(* ===================================================================== *)

Module Regex.

Inductive Cls := Space | AnyChar.

Definition inCls (k : Cls) (c : N) : bool :=
  match k with
  | Space => isWhiteSpace c
  | AnyChar => true
  end.

Inductive Item :=
| Str (p : jsstr)
| Star (greedy : bool) (k : Cls)
| Eos.

Record regex := { ignoreCase : bool; anchored : bool; items : list Item }.

Definition Cont := jsstr -> option (list jsstr * jsstr).

(** The star of a class before the continuation [k]: the greedy star
    first tries to consume one more character, the lazy star first tries
    to stop. *)
Fixpoint starLoop (greedy : bool) (cls : Cls) (k : Cont) (s : jsstr)
  : option (jsstr * (list jsstr * jsstr)) :=
  let stop := match k s with
              | Some r => Some ([], r)
              | None => None
              end in
  match s with
  | c :: s' =>
      if inCls cls c then
        let more := match starLoop greedy cls k s' with
                    | Some (p, r) => Some (c :: p, r)
                    | None => None
                    end in
        if greedy
        then match more with Some r => Some r | None => stop end
        else match stop with Some r => Some r | None => more end
      else stop
  | [] => stop
  end.

Fixpoint matchHere (ci : bool) (r : list Item) : Cont :=
  match r with
  | [] => fun s => Some ([], s)
  | Str p :: r' => fun s =>
      match stripPrefix ci p s with
      | Some s' =>
          match matchHere ci r' s' with
          | Some (ps, rest) => Some (firstn (length p) s :: ps, rest)
          | None => None
          end
      | None => None
      end
  | Star g cls :: r' => fun s =>
      match starLoop g cls (matchHere ci r') s with
      | Some (p, (ps, rest)) => Some (p :: ps, rest)
      | None => None
      end
  | Eos :: r' => fun s =>
      match s with
      | [] => match matchHere ci r' [] with
              | Some (ps, rest) => Some ([] :: ps, rest)
              | None => None
              end
      | _ :: _ => None
      end
  end.

Record Match := { before : jsstr; pieces : list jsstr; after : jsstr }.

(** Leftmost match. *)
Fixpoint search (ci : bool) (r : list Item) (s : jsstr) : option Match :=
  match matchHere ci r s with
  | Some (ps, rest) => Some {| before := []; pieces := ps; after := rest |}
  | None =>
      match s with
      | c :: t =>
          match search ci r t with
          | Some m => Some {| before := c :: before m;
                              pieces := pieces m; after := after m |}
          | None => None
          end
      | [] => None
      end
  end.

Definition exec (re : regex) (s : jsstr) : option Match :=
  if anchored re
  then match matchHere (ignoreCase re) (items re) s with
       | Some (ps, rest) => Some {| before := []; pieces := ps; after := rest |}
       | None => None
       end
  else search (ignoreCase re) (items re) s.

(** [m[0]]: the whole matched text. *)
Definition whole (m : Match) : jsstr := concat (pieces m).

(** The text consumed by the [i]-th item. *)
Definition piece (i : nat) (m : Match) : jsstr := nth i (pieces m) [].

(** [s.replace(re, '')] for a regular expression without the [g] flag. *)
Definition replaceEmpty (re : regex) (s : jsstr) : jsstr :=
  match exec re s with
  | Some m => before m ++ after m
  | None => s
  end.

End Regex.
Import Regex.

(* ===================================================================== *)
(** * The JSON-island extraction of the stage functions *)
(* ===================================================================== *)

Module Extract.

Definition FENCE : jsstr := Eval cbv in js "```".
Definition FENCE_JSON : jsstr := Eval cbv in js "```json".
Definition LBRACE : jsstr := Eval cbv in js "{".
Definition RBRACE : jsstr := Eval cbv in js "}".

(** [/```json\s*([\s\S]*?)\s*```/] *)
Definition reJsonBlock : regex :=
  {| ignoreCase := false; anchored := false;
     items := [Str FENCE_JSON; Star true Space; Star false AnyChar;
               Star true Space; Str FENCE] |}.

(** [/```\s*([\s\S]*?)\s*```/] *)
Definition reCodeBlock : regex :=
  {| ignoreCase := false; anchored := false;
     items := [Str FENCE; Star true Space; Star false AnyChar;
               Star true Space; Str FENCE] |}.

(** [/^```json\s*/i] *)
Definition reLeadingJsonFence : regex :=
  {| ignoreCase := true; anchored := true;
     items := [Str FENCE_JSON; Star true Space] |}.

(** [/^```\s*/i] *)
Definition reLeadingFence : regex :=
  {| ignoreCase := true; anchored := true;
     items := [Str FENCE; Star true Space] |}.

(** [/\s*```$/i] *)
Definition reTrailingFence : regex :=
  {| ignoreCase := true; anchored := false;
     items := [Star true Space; Str FENCE; Eos] |}.

(** [/\{[\s\S]*\}/] *)
Definition reBraces : regex :=
  {| ignoreCase := false; anchored := false;
     items := [Str LBRACE; Star true AnyChar; Str RBRACE] |}.

(** What follows the capture group in the two block expressions:
    [\s*```]. *)
Definition closing : Cont := matchHere false [Star true Space; Str FENCE].

(** The capture group of the two block expressions is their third item. *)
Definition group1 (m : Match) : jsstr := piece 2 m.

(** [jsonObjectMatch ? jsonObjectMatch[0] : text] *)
Definition braceSpan (text : jsstr) : jsstr :=
  match exec reBraces text with
  | Some m => whole m
  | None => text
  end.

(** Lines 158-182 of the pipeline module (stage 0): the candidate text
    handed to [JSON.parse]. *)
Definition extractStep0 (legalPositionRaw : jsstr) : jsstr :=
  let legalPositionJson := trim legalPositionRaw in
  let legalPositionJson :=
    if includes FENCE_JSON legalPositionJson then
      match exec reJsonBlock legalPositionJson with
      | Some jsonMatch => trim (group1 jsonMatch)
      | None => replaceEmpty reTrailingFence
                  (replaceEmpty reLeadingJsonFence legalPositionJson)
      end
    else if includes FENCE legalPositionJson then
      match exec reCodeBlock legalPositionJson with
      | Some codeMatch => trim (group1 codeMatch)
      | None => replaceEmpty reTrailingFence
                  (replaceEmpty reLeadingFence legalPositionJson)
      end
    else legalPositionJson in
  braceSpan legalPositionJson.

(** Lines 258-275 and 349-366 (stages 1 and 3): the same procedure
    without the fallback replacements. *)
Definition extractStep13 (raw : jsstr) : jsstr :=
  let text := trim raw in
  let text :=
    if includes FENCE_JSON text then
      match exec reJsonBlock text with
      | Some jsonMatch => trim (group1 jsonMatch)
      | None => text
      end
    else if includes FENCE text then
      match exec reCodeBlock text with
      | Some codeMatch => trim (group1 codeMatch)
      | None => text
      end
    else text in
  braceSpan text.

End Extract.
Import Extract.


(* ===================================================================== *)
(** * Thrown errors and JSON values *)
(* ===================================================================== *)

(** An [Error] object.  [exn_status] and [exn_code] are the fields the
    provider's client sets on its API errors; [new Error(msg)] has
    neither. *)
Record Exn := { exn_message : jsstr; exn_status : option Z; exn_code : option jsstr }.

Definition newError (msg : jsstr) : Exn :=
  {| exn_message := msg; exn_status := None; exn_code := None |}.

(** A computation that returns [A] or throws. *)
Definition Result (A : Type) : Type := (Exn + A)%type.

Definition throw {A} (e : Exn) : Result A := inl e.
Definition ok {A} (a : A) : Result A := inr a.

Definition bind {A B} (m : Result A) (f : A -> Result B) : Result B :=
  match m with
  | inl e => inl e
  | inr a => f a
  end.

Notation "x <- m ;; k" := (bind m (fun x => k))
  (at level 61, m at next level, right associativity).
Notation "' pat <- m ;; k" := (bind m (fun x => match x with pat => k end))
  (at level 61, pat pattern, m at next level, right associativity).

Module Json.

(** A value produced by [JSON.parse].  An object is the list of its
    properties in insertion order (the engine lists integer-like keys
    first; no statement below depends on the order of properties); an
    array may later receive named properties ([named]), as any JavaScript
    object may. *)
Inductive JSON :=
| JNull
| JBool (b : bool)
| JNum (q : Q)
| JStr (s : jsstr)
| JArr (elems : list JSON) (named : list (jsstr * JSON))
| JObj (props : list (jsstr * JSON)).

(** ToBoolean. *)
Definition truthy (v : JSON) : bool :=
  match v with
  | JNull => false
  | JBool b => b
  | JNum q => negb (Qnum q =? 0)%Z
  | JStr s => match s with [] => false | _ => true end
  | JArr _ _ => true
  | JObj _ => true
  end.

Fixpoint assoc {A} (k : jsstr) (l : list (jsstr * A)) : option A :=
  match l with
  | [] => None
  | (k', v) :: t => if JsString.eqb k k' then Some v else assoc k t
  end.

Fixpoint assocSet {A} (k : jsstr) (x : A) (l : list (jsstr * A)) : list (jsstr * A) :=
  match l with
  | [] => [(k, x)]
  | (k', v) :: t => if JsString.eqb k k' then (k', x) :: t else (k', v) :: assocSet k x t
  end.

(** [v.k] for a property name [k] that is neither an index nor a builtin
    member, on a value that is not [null]: [None] is [undefined]. *)
Fixpoint assocRemove {A} (k : jsstr) (l : list (jsstr * A)) : list (jsstr * A) :=
  match l with
  | [] => []
  | (k', v) :: t => if JsString.eqb k k' then assocRemove k t else (k', v) :: assocRemove k t
  end.

Definition getProp (k : jsstr) (v : JSON) : option JSON :=
  match v with
  | JObj props => assoc k props
  | JArr _ named => assoc k named
  | _ => None
  end.

(** [v?.k] on a possibly undefined value. *)
Definition optProp (k : jsstr) (v : option JSON) : option JSON :=
  match v with
  | None | Some JNull => None
  | Some v' => getProp k v'
  end.

(** [a || b] on possibly undefined values. *)
Definition orElse (a : option JSON) (b : JSON) : JSON :=
  match a with
  | Some v => if truthy v then v else b
  | None => b
  end.

Fixpoint indexed (i : nat) (l : list JSON) : list (jsstr * JSON) :=
  match l with
  | [] => []
  | v :: t => (decimal i, v) :: indexed (S i) t
  end.

(** The own enumerable properties copied by the spread [{...v}]. *)
Definition ownProps (v : JSON) : list (jsstr * JSON) :=
  match v with
  | JObj props => props
  | JArr elems named => indexed 0 elems ++ named
  | JStr s => indexed 0 (map (fun c => JStr [c]) s)
  | _ => []
  end.

(** [{...base, ...v}] on property lists. *)
Definition spreadInto (base : list (jsstr * JSON)) (v : JSON) : list (jsstr * JSON) :=
  fold_left (fun acc kv => assocSet (fst kv) (snd kv) acc) (ownProps v) base.

End Json.
Import Json.

(* ===================================================================== *)
(** * A small JSON reader and writer

    [Env] takes [JSON.parse] and [JSON.stringify] as parameters.  The
    reader and writer below instantiate them in the concrete scenarios:
    they cover objects, arrays, strings with the one-letter escapes, the
    three literals and integer numbers. *)
(* ===================================================================== *)

Module SmallJson.

Definition DQUOTE : N := 34%N.
Definition BSLASH : N := 92%N.

Definition isJsonSpace (c : N) : bool :=
  ((c =? 32) || (c =? 9) || (c =? 10) || (c =? 13))%N.

Fixpoint skipWs (s : jsstr) : jsstr :=
  match s with
  | c :: t => if isJsonSpace c then skipWs t else s
  | [] => []
  end.

Definition isDigit (c : N) : bool := ((48 <=? c) && (c <=? 57))%N.

Fixpoint readDigits (acc : Z) (s : jsstr) : Z * jsstr :=
  match s with
  | c :: t => if isDigit c then readDigits (acc * 10 + Z.of_N (c - 48)) t else (acc, s)
  | [] => (acc, [])
  end.

Definition unescape (c : N) : option N :=
  if (c =? 34)%N then Some 34%N
  else if (c =? 92)%N then Some 92%N
  else if (c =? 47)%N then Some 47%N
  else if (c =? 98)%N then Some 8%N
  else if (c =? 102)%N then Some 12%N
  else if (c =? 110)%N then Some 10%N
  else if (c =? 114)%N then Some 13%N
  else if (c =? 116)%N then Some 9%N
  else None.

(** The characters of a string literal, after its opening quote. *)
Fixpoint readString (s : jsstr) : option (jsstr * jsstr) :=
  match s with
  | [] => None
  | c :: t =>
      if (c =? DQUOTE)%N then Some ([], t)
      else if (c =? BSLASH)%N then
        match t with
        | e :: t' =>
            match unescape e, readString t' with
            | Some x, Some (r, rest) => Some (x :: r, rest)
            | _, _ => None
            end
        | [] => None
        end
      else if (c <? 32)%N then None
      else match readString t with
           | Some (r, rest) => Some (c :: r, rest)
           | None => None
           end
  end.

Fixpoint readValue (fuel : nat) (s : jsstr) {struct fuel} : option (JSON * jsstr) :=
  match fuel with
  | O => None
  | S fuel' =>
      match skipWs s with
      | [] => None
      | c :: t =>
          if (c =? DQUOTE)%N then
            match readString t with
            | Some (r, rest) => Some (JStr r, rest)
            | None => None
            end
          else if (c =? 91)%N then
            match skipWs t with
            | 93%N :: rest => Some (JArr [] [], rest)
            | _ => match readElems fuel' t with
                   | Some (l, rest) => Some (JArr l [], rest)
                   | None => None
                   end
            end
          else if (c =? 123)%N then
            match skipWs t with
            | 125%N :: rest => Some (JObj [], rest)
            | _ => match readMembers fuel' t with
                   | Some (l, rest) => Some (JObj l, rest)
                   | None => None
                   end
            end
          else if (c =? 45)%N then
            match t with
            | d :: _ => if isDigit d
                        then let (z, rest) := readDigits 0 t in
                             Some (JNum (inject_Z (- z)), rest)
                        else None
            | [] => None
            end
          else if isDigit c then
            let (z, rest) := readDigits 0 (c :: t) in Some (JNum (inject_Z z), rest)
          else
            match stripPrefix false (js "null") (c :: t) with
            | Some rest => Some (JNull, rest)
            | None =>
            match stripPrefix false (js "true") (c :: t) with
            | Some rest => Some (JBool true, rest)
            | None =>
            match stripPrefix false (js "false") (c :: t) with
            | Some rest => Some (JBool false, rest)
            | None => None
            end end end
      end
  end
with readElems (fuel : nat) (s : jsstr) {struct fuel} : option (list JSON * jsstr) :=
  match fuel with
  | O => None
  | S fuel' =>
      match readValue fuel' s with
      | Some (v, rest) =>
          match skipWs rest with
          | 44%N :: rest' =>
              match readElems fuel' rest' with
              | Some (l, rest'') => Some (v :: l, rest'')
              | None => None
              end
          | 93%N :: rest' => Some ([v], rest')
          | _ => None
          end
      | None => None
      end
  end
with readMembers (fuel : nat) (s : jsstr) {struct fuel}
  : option (list (jsstr * JSON) * jsstr) :=
  match fuel with
  | O => None
  | S fuel' =>
      match skipWs s with
      | 34%N :: t =>
          match readString t with
          | Some (k, rest) =>
              match skipWs rest with
              | 58%N :: rest1 =>
                  match readValue fuel' rest1 with
                  | Some (v, rest2) =>
                      match skipWs rest2 with
                      | 44%N :: rest3 =>
                          match readMembers fuel' rest3 with
                          | Some (l, rest4) =>
                              (* a repeated key keeps its first place and
                                 its last value *)
                              Some ((k, match assoc k l with
                                        | Some v' => v'
                                        | None => v
                                        end) :: assocRemove k l, rest4)
                          | None => None
                          end
                      | 125%N :: rest3 => Some ([(k, v)], rest3)
                      | _ => None
                      end
                  | None => None
                  end
              | _ => None
              end
          | None => None
          end
      | _ => None
      end
  end.

Definition syntaxError : Exn := newError (js "Unexpected token in JSON").

(** [JSON.parse(text)]. *)
Definition parse (text : jsstr) : Result JSON :=
  match readValue (2 * length text + 2) text with
  | Some (v, rest) => match skipWs rest with
                      | [] => ok v
                      | _ :: _ => throw syntaxError
                      end
  | None => throw syntaxError
  end.

Definition hexDigit (n : N) : N := if (n <? 10)%N then (48 + n)%N else (87 + n)%N.

Definition escapeChar (c : N) : jsstr :=
  if (c =? 34)%N then [92; 34]%N
  else if (c =? 92)%N then [92; 92]%N
  else if (c =? 8)%N then [92; 98]%N
  else if (c =? 12)%N then [92; 102]%N
  else if (c =? 10)%N then [92; 110]%N
  else if (c =? 13)%N then [92; 114]%N
  else if (c =? 9)%N then [92; 116]%N
  else if (c <? 32)%N then [92; 117; 48; 48; hexDigit (c / 16); hexDigit (c mod 16)]%N
  else [c].

Definition quote (s : jsstr) : jsstr :=
  DQUOTE :: flat_map escapeChar s ++ [DQUOTE].

Definition showZ (z : Z) : jsstr :=
  match z with
  | Zneg p => 45%N :: decimal (Pos.to_nat p)
  | _ => decimal (Z.to_nat z)
  end.

Definition showNum (q : Q) : jsstr :=
  match Qden q with
  | 1%positive => showZ (Qnum q)
  | d => showZ (Qnum q) ++ 47%N :: showZ (Zpos d)
  end.

Fixpoint joinWith (sep : jsstr) (l : list jsstr) : jsstr :=
  match l with
  | [] => []
  | [x] => x
  | x :: t => x ++ sep ++ joinWith sep t
  end.

Definition spaces (n : nat) : jsstr := repeat 32%N n.

(** [JSON.stringify(v, null, gap)] at nesting depth [depth]; [gap = 0] is
    the compact form [JSON.stringify(v)]. *)
Fixpoint write (gap depth : nat) (v : JSON) : jsstr :=
  let inner := spaces (gap * S depth) in
  let outer := spaces (gap * depth) in
  let wrap (l r : N) (parts : list jsstr) : jsstr :=
    match parts, gap with
    | [], _ => [l; r]
    | _, O => l :: joinWith [44%N] parts ++ [r]
    | _, _ => l :: NL ++ inner ++ joinWith (44%N :: NL ++ inner) parts
                ++ NL ++ outer ++ [r]
    end in
  let colon : jsstr := match gap with O => [58%N] | _ => [58%N; 32%N] end in
  match v with
  | JNull => js "null"
  | JBool true => js "true"
  | JBool false => js "false"
  | JNum q => showNum q
  | JStr s => quote s
  | JArr elems _ => wrap 91%N 93%N (map (write gap (S depth)) elems)
  | JObj props =>
      wrap 123%N 125%N
        ((fix members (l : list (jsstr * JSON)) : list jsstr :=
            match l with
            | [] => []
            | (k, x) :: t => (quote k ++ colon ++ write gap (S depth) x) :: members t
            end) props)
  end.

Definition stringify (v : JSON) : jsstr := write 0 0 v.
Definition stringify2 (v : JSON) : jsstr := write 2 0 v.

End SmallJson.

(* ===================================================================== *)
(** * The model invoker: [callOpenAI] of [src/lib/llm-client.ts] *)
(* ===================================================================== *)

Module LlmClient.

Local Open Scope Q_scope.

Record ModelPricing := { input : Q; cached_input : Q; output : Q }.

Definition GPT_5_MINI : jsstr := Eval cbv in js "gpt-5-mini".
Definition GPT_5 : jsstr := Eval cbv in js "gpt-5".
Definition GPT_5_1 : jsstr := Eval cbv in js "gpt-5.1".
Definition GPT_4O : jsstr := Eval cbv in js "gpt-4o".

Definition MODEL_PRICING : list (jsstr * ModelPricing) :=
  [ (GPT_5_MINI, {| input := 0.25; cached_input := 0.025; output := 2.0 |});
    (GPT_5, {| input := 1.25; cached_input := 0.125; output := 10.0 |});
    (GPT_5_1, {| input := 1.25; cached_input := 0.125; output := 10.0 |});
    (GPT_4O, {| input := 1.25; cached_input := 0.125; output := 10.0 |}) ].

Definition MODEL_PRICING_FLEX : list (jsstr * ModelPricing) :=
  [ (GPT_5_MINI, {| input := 0.125; cached_input := 0.0125; output := 1.0 |});
    (GPT_5, {| input := 0.625; cached_input := 0.0625; output := 5.0 |});
    (GPT_5_1, {| input := 0.625; cached_input := 0.0625; output := 5.0 |});
    (GPT_4O, {| input := 0.625; cached_input := 0.0625; output := 5.0 |}) ].

Record TokenUsage := {
  promptTokens : Z;
  completionTokens : Z;
  cachedTokens : option Z;
  totalTokens : Z
}.

Record CostBreakdown := {
  inputCost : Q;
  cachedInputCost : Q;
  outputCost : Q;
  totalCost : Q
}.

Record APIResponse := {
  content : jsstr;
  usage : TokenUsage;
  cost : CostBreakdown;
  usedFlex : bool;
  fallbackToStandard : bool
}.

(** What the provider sends back: the [usage] object of a completion and
    the part of the completion the invoker reads. *)
Record RawUsage := {
  prompt_tokens : option Z;
  completion_tokens : option Z;
  cached_tokens : option Z;
  total_tokens : option Z
}.

Record ChatCompletion := {
  message_content : option jsstr;   (* response.choices[0]?.message?.content *)
  response_usage : option RawUsage  (* response.usage *)
}.

(** [requestParams] of [createRequest]. *)
Record Request := {
  req_model : jsstr;
  req_system : jsstr;
  req_user : jsstr;
  req_temperature : Q;
  req_service_tier : option jsstr
}.

Inductive Reply :=
| Rejected (e : Exn)
| Completed (c : ChatCompletion).

(** The provider as one invocation of [callOpenAI] sees it: its answer to
    the [n]-th request of the invocation. *)
Definition Provider := nat -> Request -> Reply.

(** What an invocation does, in order. *)
Inductive Event :=
| Sent (r : Request)
| Slept (ms : Z).

Record Session := { sent : nat; trace : list Event }.

Definition FLEX : jsstr := Eval cbv in js "flex".


Section Invocation.

Variable provider : Provider.
Variables systemPrompt userContent : jsstr.

(** [createRequest(flexMode)]; [usedModel] is the current value of the
    variable the closure reads. *)
Definition requestParams (usedModel : jsstr) (flexMode : bool) : Request :=
  {| req_model := usedModel; req_system := systemPrompt; req_user := userContent;
     req_temperature := 0.7;
     req_service_tier := if flexMode then Some FLEX else None |}.

Definition createRequest (usedModel : jsstr) (flexMode : bool) (st : Session)
  : Session * Result ChatCompletion :=
  ({| sent := S (sent st);
      trace := trace st ++ [Sent (requestParams usedModel flexMode)] |},
   match provider (sent st) (requestParams usedModel flexMode) with
   | Rejected e => throw e
   | Completed c => ok c
   end).

Definition delay (ms : Z) (st : Session) : Session :=
  {| sent := sent st; trace := trace st ++ [Slept ms] |}.

Definition optZ_eqb (a : option Z) (z : Z) : bool :=
  match a with
  | Some x => (x =? z)%Z
  | None => false
  end.

Definition optStr_eqb (a : option jsstr) (s : jsstr) : bool :=
  match a with
  | Some x => JsString.eqb x s
  | None => false
  end.

(** The test of lines 370-375: a 429 "Resource Unavailable". *)
Definition isResourceUnavailable (error : Exn) : bool :=
  optZ_eqb (exn_status error) 429
  && (includes (js "Resource Unavailable") (exn_message error)
      || includes (js "resource_unavailable") (exn_message error)
      || optStr_eqb (exn_code error) (js "resource_unavailable")).

(** The test of lines 410 and 425: the model is not available. *)
Definition isModelUnavailable (error : Exn) : bool :=
  optZ_eqb (exn_status error) 404
  || includes (js "model") (exn_message error)
  || optStr_eqb (exn_code error) (js "model_not_found").

Definition maxRetries : nat := 3.
Definition retryDelays : list Z := [2000; 4000; 8000]%Z.

(** The variables the flex loop assigns. *)
Record FlexVars := {
  response : option ChatCompletion;
  actuallyUsedFlex : bool;
  fallbackToStandardVar : bool;
  lastError : option Exn
}.

(** The [for] loop of lines 362-402, entered with [attempt] and
    [remaining = maxRetries - attempt] iterations left. *)
Fixpoint flexLoop (model : jsstr) (remaining attempt : nat) (vars : FlexVars)
  (st : Session) : Session * FlexVars :=
  match remaining with
  | O => (st, vars)
  | S remaining' =>
      let (st1, r) := createRequest model true st in
      match r with
      | inr resp =>
          (st1, {| response := Some resp; actuallyUsedFlex := actuallyUsedFlex vars;
                   fallbackToStandardVar := fallbackToStandardVar vars;
                   lastError := lastError vars |})
      | inl error =>
          let vars1 := {| response := response vars;
                          actuallyUsedFlex := actuallyUsedFlex vars;
                          fallbackToStandardVar := fallbackToStandardVar vars;
                          lastError := Some error |} in
          if isResourceUnavailable error then
            if (attempt <? maxRetries - 1)%nat then
              flexLoop model remaining' (S attempt) vars1
                (delay (nth attempt retryDelays 0%Z) st1)
            else
              (st1, {| response := response vars1; actuallyUsedFlex := false;
                       fallbackToStandardVar := true; lastError := lastError vars1 |})
          else
            (st1, {| response := response vars1; actuallyUsedFlex := false;
                     fallbackToStandardVar := true; lastError := lastError vars1 |})
      end
  end.

(** The standard-tier request with the substitution of [gpt-4o]: the
    text of lines 406-417 and, again, of lines 421-432.  Returns the
    completion and the final value of [usedModel]. *)
Definition standardRequest (model : jsstr) (st : Session)
  : Session * Result (ChatCompletion * jsstr) :=
  let (st1, r) := createRequest model false st in
  match r with
  | inr resp => (st1, ok (resp, model))
  | inl modelError =>
      if isModelUnavailable modelError then
        let usedModel := GPT_4O in
        let (st2, r2) := createRequest usedModel false st1 in
        (st2, match r2 with
              | inr resp => ok (resp, usedModel)
              | inl e => throw e
              end)
      else (st1, throw modelError)
  end.

Definition orZero (x : option Z) : Z :=
  match x with
  | Some z => if (z =? 0)%Z then 0%Z else z
  | None => 0%Z
  end.

Definition pricingOf (table : list (jsstr * ModelPricing)) (usedModel : jsstr)
  : ModelPricing :=
  match assoc usedModel table with
  | Some p => p
  | None => match assoc GPT_5_1 table with
            | Some p => p
            | None => {| input := 0; cached_input := 0; output := 0 |}
            end
  end.

(** Lines 446-471. *)
Definition tokenUsageOf (u : RawUsage) : TokenUsage :=
  {| promptTokens := orZero (prompt_tokens u);
     completionTokens := orZero (completion_tokens u);
     cachedTokens := Some (orZero (cached_tokens u));
     totalTokens := orZero (total_tokens u) |}.

Definition costOf (pricing : ModelPricing) (tokenUsage : TokenUsage) : CostBreakdown :=
  let inputTokens := (promptTokens tokenUsage - orZero (cachedTokens tokenUsage))%Z in
  let cachedInputTokens := orZero (cachedTokens tokenUsage) in
  let outputTokens := completionTokens tokenUsage in
  let inputCost := (inject_Z inputTokens / 1000000) * input pricing in
  let cachedInputCost := (inject_Z cachedInputTokens / 1000000) * cached_input pricing in
  let outputCost := (inject_Z outputTokens / 1000000) * output pricing in
  {| inputCost := inputCost; cachedInputCost := cachedInputCost;
     outputCost := outputCost;
     totalCost := inputCost + cachedInputCost + outputCost |}.

Definition noApiKey : Exn :=
  newError (js "OPENAI_API_KEY не установлен в переменных окружения").
Definition emptyAnswer : Exn := newError (js "Пустой ответ от OpenAI API").
Definition noUsage : Exn :=
  newError (js "Не получена статистика использования токенов").
Definition undefinedResponse : Exn :=
  newError (js "Cannot read properties of undefined (reading 'choices')").

(** Nothing sent yet. *)
Definition st0 : Session := {| sent := O; trace := [] |}.

(** The variables at the entry of the flex loop ([useFlex] is true). *)
Definition vars0 : FlexVars :=
  {| response := None; actuallyUsedFlex := true;
     fallbackToStandardVar := false; lastError := None |}.

(** The body of the outer [try]. *)
Definition callOpenAI_body (haveClient : bool) (model : jsstr) (useFlex : bool)
  : Session * Result APIResponse :=
  if negb haveClient then (st0, throw noApiKey) else
  let '(st, r) :=
    if useFlex then
      let (st1, vars) := flexLoop model maxRetries 0 vars0 st0 in
      match response vars with
      | None =>
          if fallbackToStandardVar vars then
            let (st2, r2) := standardRequest model st1 in
            (st2, match r2 with
                  | inr (resp, usedModel) =>
                      ok (Some resp, usedModel, actuallyUsedFlex vars,
                          fallbackToStandardVar vars)
                  | inl e => throw e
                  end)
          else (st1, ok (None, model, actuallyUsedFlex vars, fallbackToStandardVar vars))
      | Some resp =>
          (st1, ok (Some resp, model, actuallyUsedFlex vars, fallbackToStandardVar vars))
      end
    else
      let (st1, r1) := standardRequest model st0 in
      (st1, match r1 with
            | inr (resp, usedModel) => ok (Some resp, usedModel, useFlex, false)
            | inl e => throw e
            end) in
  (st,
   '(resp, usedModel, actuallyUsedFlex, fallbackToStandard) <- r ;;
   resp <- match resp with Some c => ok c | None => throw undefinedResponse end ;;
   content <- match message_content resp with
              | Some (c :: t) => ok (c :: t)
              | _ => throw emptyAnswer
              end ;;
   usage <- match response_usage resp with
            | Some u => ok u
            | None => throw noUsage
            end ;;
   let tokenUsage := tokenUsageOf usage in
   let pricing := if (actuallyUsedFlex : bool)
                  then pricingOf MODEL_PRICING_FLEX usedModel
                  else pricingOf MODEL_PRICING usedModel in
   ok {| content := content; usage := tokenUsage; cost := costOf pricing tokenUsage;
         usedFlex := actuallyUsedFlex; fallbackToStandard := fallbackToStandard |}).

Definition wrapApiError (error : Exn) : Exn :=
  newError (js "Ошибка при вызове OpenAI API: " ++ exn_message error).

(** [callOpenAI(systemPrompt, userContent, model, useFlex)], with the
    trace of what it did. *)
Definition callOpenAI (haveClient : bool) (model : jsstr) (useFlex : bool)
  : list Event * Result APIResponse :=
  let (st, r) := callOpenAI_body haveClient model useFlex in
  (trace st, match r with
             | inr a => ok a
             | inl error => throw (wrapApiError error)
             end).

End Invocation.

(** ** Vocabulary for statements about a provider *)






Definition isSent (e : Event) : bool :=
  match e with
  | Sent _ => true
  | Slept _ => false
  end.



End LlmClient.

(* ===================================================================== *)
(** * The pipeline module *)
(* ===================================================================== *)

Module Pipeline.

Import LlmClient.
Local Open Scope Q_scope.

Definition Buffer := list N.

(** [LegalPosition], [CaseCard] and [ReviewSkeleton] are TypeScript casts
    of what [JSON.parse] returned: at run time they are JSON values. *)
Definition LegalPosition := JSON.
Definition CaseCard := JSON.
Definition ReviewSkeleton := JSON.

Record DocumentProcessingResult := {
  fileName : jsstr;
  caseNumber : option JSON;
  markdown : jsstr;
  legalPosition : jsstr;
  legalPositionParsed : option LegalPosition;
  caseCard : option CaseCard;
  caseCardRaw : option jsstr;
  error : option jsstr
}.

Record Tokens := { t_input : Z; t_cachedInput : Z; t_output : Z; t_total : Z }.
Record Costs := { c_input : Q; c_cachedInput : Q; c_output : Q; c_total : Q }.

Record StepCostStatistics := {
  step : nat;
  stepName : jsstr;
  model : option jsstr;
  calls : nat;
  tokens : Tokens;
  cost_ : Costs
}.

Record Totals := { total_tokens_ : Tokens; total_cost : Costs }.

Record CostStatistics := { steps : list StepCostStatistics; total : Totals }.

Record PipelineResult := {
  documents : list DocumentProcessingResult;
  caseCards : list CaseCard;
  reviewSkeleton : option ReviewSkeleton;
  review : jsstr;
  costStatistics : option CostStatistics;
  error_ : option jsstr
}.

Record File := { file_fileName : jsstr; file_buffer : Buffer }.

(** The collaborators and builtins of one run. *)
Record Env := {
  (** [mammoth.convertToMarkdown({ buffer })]: its [value], or the error
      it throws *)
  mammoth_convertToMarkdown : Buffer -> Result jsstr;
  (** [loadPromptWithParts(path)]: [(systemPrompt, userPrompt)] *)
  loadPromptWithParts : jsstr -> Result (jsstr * jsstr);
  (** [getOpenAIClient()] returns a client *)
  haveClient : bool;
  (** the provider as seen by the call at position [i] of step [s] *)
  provider : nat -> nat -> Provider;
  (** [JSON.parse(text)] *)
  JSON_parse : jsstr -> Result JSON;
  (** [JSON.stringify(value, null, 2)] *)
  JSON_stringify : JSON -> jsstr;
  (** the message of the [TypeError] raised when the property
      [caseNumber] of the value cannot be read or created *)
  typeErrorMessage : JSON -> jsstr;
  (** the file-system effects of [saveResults] *)
  fs_saveResults : list DocumentProcessingResult -> ReviewSkeleton -> jsstr -> Result unit
}.

(** What a run invokes, in program order (calls of one [map] in input
    order). *)
Inductive Call :=
| CallStep0 (index : nat)
| CallStep1 (file : jsstr)
| CallStep2
| CallStep3
| CallStep4
| CallSave.

Fixpoint mapi_from {A B} (i : nat) (f : nat -> A -> B) (l : list A) : list B :=
  match l with
  | [] => []
  | a :: t => f i a :: mapi_from (S i) f t
  end.

(** [array.map((x, index) => ...)]. *)
Definition mapi {A B} (f : nat -> A -> B) (l : list A) : list B := mapi_from 0 f l.

Fixpoint sequence {A} (l : list (Result A)) : Result (list A) :=
  match l with
  | [] => ok []
  | r :: t => a <- r ;; rest <- sequence t ;; ok (a :: rest)
  end.

Definition nonEmpty (s : jsstr) : bool :=
  match s with [] => false | _ => true end.

Definition optTruthy (v : option JSON) : bool :=
  match v with
  | Some x => truthy x
  | None => false
  end.

Definition strTruthy (v : option jsstr) : bool :=
  match v with
  | Some s => nonEmpty s
  | None => false
  end.

Definition zeroCost : CostBreakdown :=
  {| inputCost := 0; cachedInputCost := 0; outputCost := 0; totalCost := 0 |}.
Definition zeroUsage : TokenUsage :=
  {| promptTokens := 0; completionTokens := 0; cachedTokens := None; totalTokens := 0 |}.

Record StepOutcome := {
  so_result : DocumentProcessingResult;
  so_cost : CostBreakdown;
  so_usage : TokenUsage
}.

Definition MODEL_STEP0 : jsstr := Eval cbv in js "x-ai/grok-4.1-fast".
Definition MODEL_STEP1 : jsstr :=
  Eval cbv in js "google/gemini-2.5-flash-lite-preview-09-2025".
Definition MODEL_STEP3 : jsstr := Eval cbv in js "deepseek/deepseek-v3.2".
Definition MODEL_STEP4 : jsstr :=
  Eval cbv in js "google/gemini-2.5-flash-preview-09-2025".

Definition JSON_FENCE_OPEN : jsstr := FENCE_JSON ++ NL.   (* "```json\n" *)
Definition JSON_FENCE_CLOSE : jsstr := NL ++ FENCE.       (* "\n```" *)

Section Run.

Variable env : Env.

(** [convertDocxBufferToMarkdown] of [src/lib/docx-to-markdown.ts]. *)
Definition convertDocxBufferToMarkdown (buffer : Buffer) : Result jsstr :=
  match mammoth_convertToMarkdown env buffer with
  | inr value => ok value
  | inl error =>
      throw (newError (js "Ошибка при конвертации DOCX буфера в Markdown: "
                         ++ exn_message error))
  end.

(** [await callOpenAI(systemPrompt, userContent, model)] issued by the
    call at position [i] of step [s] ([useFlex] keeps its default). *)
Definition invoke (s i : nat) (systemPrompt userContent model : jsstr)
  : Result APIResponse :=
  snd (callOpenAI (provider env s i) systemPrompt userContent (haveClient env) model false).

(** Lines 184-200: parse and validate the candidate text. *)
Definition parseLegalPosition (legalPositionJson : jsstr) : Result LegalPosition :=
  let attempt : Result LegalPosition :=
    legalPositionParsed <- JSON_parse env legalPositionJson ;;
    match legalPositionParsed with
    | JObj _ | JArr _ _ => ok legalPositionParsed
    | _ => throw (newError (js "JSON не является объектом"))
    end in
  match attempt with
  | inr v => ok v
  | inl parseError =>
      throw (newError
        (js "Не удалось распарсить JSON из ответа LLM: " ++ exn_message parseError
         ++ js ". Первые 500 символов ответа: " ++ substring0 500 legalPositionJson))
  end.

(** Lines 158-200 as one procedure: from the raw answer to the parsed
    object. *)
Definition extractJson (raw : jsstr) : Result LegalPosition :=
  parseLegalPosition (extractStep0 raw).

Definition processDocumentStep0 (index : nat) (fileName : jsstr) (buffer : Buffer)
  : StepOutcome :=
  let attempt : Result StepOutcome :=
    markdown <- convertDocxBufferToMarkdown buffer ;;
    ' (systemPrompt, userPrompt) <- loadPromptWithParts env (js "prompts/step0-prompt.md") ;;
    let userContent :=
      if nonEmpty userPrompt then userPrompt ++ NL ++ NL ++ markdown else markdown in
    apiResponse <- invoke 0 index systemPrompt userContent MODEL_STEP0 ;;
    let legalPositionRaw := content apiResponse in
    let legalPositionJson := extractStep0 legalPositionRaw in
    legalPositionParsed <- extractJson legalPositionRaw ;;
    let caseNumber :=
      orElse (optProp (js "case_number") (optProp (js "level1") (Some legalPositionParsed)))
             (JStr []) in
    ok {| so_result := {| fileName := fileName;
                          caseNumber := Some caseNumber;
                          markdown := markdown;
                          legalPosition := legalPositionJson;
                          legalPositionParsed := Some legalPositionParsed;
                          caseCard := None; caseCardRaw := None; error := None |};
          so_cost := cost apiResponse;
          so_usage := usage apiResponse |} in
  match attempt with
  | inr out => out
  | inl error =>
      {| so_result := {| fileName := fileName; caseNumber := None;
                         markdown := []; legalPosition := [];
                         legalPositionParsed := None;
                         caseCard := None; caseCardRaw := None;
                         error := Some (exn_message error) |};
         so_cost := zeroCost; so_usage := zeroUsage |}
  end.

Definition withError (document : DocumentProcessingResult) (msg : jsstr)
  : DocumentProcessingResult :=
  {| fileName := fileName document; caseNumber := caseNumber document;
     markdown := markdown document; legalPosition := legalPosition document;
     legalPositionParsed := legalPositionParsed document;
     caseCard := caseCard document; caseCardRaw := caseCardRaw document;
     error := Some msg |}.

Definition withCaseCard (document : DocumentProcessingResult) (card : CaseCard)
  (raw : jsstr) : DocumentProcessingResult :=
  {| fileName := fileName document; caseNumber := caseNumber document;
     markdown := markdown document; legalPosition := legalPosition document;
     legalPositionParsed := legalPositionParsed document;
     caseCard := Some card; caseCardRaw := Some raw;
     error := error document |}.

(** [value.caseNumber]: reading a property of [null] throws. *)
Definition readCaseNumber (value : JSON) : Result (option JSON) :=
  match value with
  | JNull => throw (newError (typeErrorMessage env value))
  | _ => ok (getProp (js "caseNumber") value)
  end.

(** [value.caseNumber = x] in strict code: creating a property on a
    primitive throws. *)
Definition writeCaseNumber (value x : JSON) : Result JSON :=
  match value with
  | JObj props => ok (JObj (assocSet (js "caseNumber") x props))
  | JArr elems named => ok (JArr elems (assocSet (js "caseNumber") x named))
  | _ => throw (newError (typeErrorMessage env value))
  end.

Definition processStep1 (index : nat) (document : DocumentProcessingResult)
  : StepOutcome :=
  if negb (optTruthy (legalPositionParsed document)) then
    {| so_result := withError document (js "Нет правовой позиции для создания карточки");
       so_cost := zeroCost; so_usage := zeroUsage |}
  else
  let attempt : Result StepOutcome :=
    ' (systemPrompt, userPrompt) <- loadPromptWithParts env (js "prompts/step1-prompt.md") ;;
    let positionJson :=
      match legalPositionParsed document with
      | Some p => JSON_stringify env p
      | None => []
      end in
    let userContent :=
      if nonEmpty userPrompt
      then userPrompt ++ NL ++ NL ++ JSON_FENCE_OPEN ++ positionJson ++ JSON_FENCE_CLOSE
      else positionJson in
    apiResponse <- invoke 1 index systemPrompt userContent MODEL_STEP1 ;;
    let caseCardRaw := content apiResponse in
    let caseCardJson := extractStep13 caseCardRaw in
    caseCard <- JSON_parse env caseCardJson ;;
    own <- readCaseNumber caseCard ;;
    caseCard <- (if negb (optTruthy own) && optTruthy (caseNumber document)
                 then match caseNumber document with
                      | Some n => writeCaseNumber caseCard n
                      | None => ok caseCard
                      end
                 else ok caseCard) ;;
    ok {| so_result := withCaseCard document caseCard caseCardJson;
          so_cost := cost apiResponse;
          so_usage := usage apiResponse |} in
  match attempt with
  | inr out => out
  | inl error =>
      {| so_result := withError document
                        (js "Ошибка при создании карточки дела: " ++ exn_message error);
         so_cost := zeroCost; so_usage := zeroUsage |}
  end.

Definition processStep2 (caseCards : list CaseCard) : list CaseCard := caseCards.

(** The object built for one card by the [map] of lines 335-340 (and of
    lines 401-406):
    [{ index, fileName, caseNumber, ...card }]. *)
Definition cardEntry (documents : list DocumentProcessingResult) (index : nat)
  (card : CaseCard) : Result JSON :=
  let document := nth_error documents index in
  let fileNameField :=
    match document with
    | Some d => if nonEmpty (fileName d) then fileName d
                else js "Документ " ++ decimal (index + 1)
    | None => js "Документ " ++ decimal (index + 1)
    end in
  let ofDocument := match document with Some d => caseNumber d | None => None end in
  caseNumberField <-
    (if optTruthy ofDocument then ok (orElse ofDocument (JStr []))
     else own <- readCaseNumber card ;; ok (orElse own (JStr []))) ;;
  ok (JObj (spreadInto
              [ (js "index", JNum (inject_Z (Z.of_nat (index + 1))));
                (js "fileName", JStr fileNameField);
                (js "caseNumber", caseNumberField) ]
              card)).

Definition cardsData (caseCards : list CaseCard)
  (documents : list DocumentProcessingResult) : Result (list JSON) :=
  sequence (mapi (cardEntry documents) caseCards).

Record Step3Result := {
  s3_skeleton : ReviewSkeleton;
  s3_cost : CostBreakdown;
  s3_usage : TokenUsage
}.

Definition processStep3 (caseCards : list CaseCard)
  (documents : list DocumentProcessingResult) : Result Step3Result :=
  match caseCards with
  | [] => throw (newError (js "Нет карточек для создания скелета обзора"))
  | _ :: _ =>
      let attempt : Result Step3Result :=
        ' (systemPrompt, userPrompt) <-
            loadPromptWithParts env (js "prompts/step3-prompt.md") ;;
        data <- cardsData caseCards documents ;;
        let cardsJson := JSON_stringify env (JArr data []) in
        let userContent :=
          if nonEmpty userPrompt
          then userPrompt ++ NL ++ NL ++ JSON_FENCE_OPEN ++ cardsJson ++ JSON_FENCE_CLOSE
          else cardsJson in
        apiResponse <- invoke 3 0 systemPrompt userContent MODEL_STEP3 ;;
        let skeletonRaw := content apiResponse in
        let skeletonJson := extractStep13 skeletonRaw in
        skeleton <- JSON_parse env skeletonJson ;;
        ok {| s3_skeleton := skeleton; s3_cost := cost apiResponse;
              s3_usage := usage apiResponse |} in
      match attempt with
      | inr r => ok r
      | inl error =>
          throw (newError (js "Ошибка при создании скелета обзора: " ++ exn_message error))
      end
  end.

Record Step4Result := {
  s4_review : jsstr;
  s4_cost : CostBreakdown;
  s4_usage : TokenUsage
}.

Definition processStep4 (skeleton : ReviewSkeleton) (caseCards : list CaseCard)
  (documents : list DocumentProcessingResult) : Result Step4Result :=
  let attempt : Result Step4Result :=
    ' (systemPrompt, userPrompt) <-
        loadPromptWithParts env (js "prompts/step4-prompt.md") ;;
    let skeletonJson := JSON_stringify env skeleton in
    cardsContext <- cardsData caseCards documents ;;
    let cardsJson := JSON_stringify env (JArr cardsContext []) in
    let userContent :=
      if nonEmpty userPrompt
      then userPrompt ++ NL ++ NL ++ js "## Скелет обзора:" ++ NL
             ++ JSON_FENCE_OPEN ++ skeletonJson ++ JSON_FENCE_CLOSE ++ NL ++ NL
             ++ js "## Карточки дел:" ++ NL
             ++ JSON_FENCE_OPEN ++ cardsJson ++ JSON_FENCE_CLOSE
      else js "Скелет обзора:" ++ NL ++ skeletonJson ++ NL ++ NL
             ++ js "Карточки дел:" ++ NL ++ cardsJson in
    apiResponse <- invoke 4 0 systemPrompt userContent MODEL_STEP4 ;;
    ok {| s4_review := content apiResponse; s4_cost := cost apiResponse;
          s4_usage := usage apiResponse |} in
  match attempt with
  | inr r => ok r
  | inl error =>
      throw (newError (js "Ошибка при создании финального обзора: " ++ exn_message error))
  end.

(** ** Cost statistics *)

Definition zOr0 (z : Z) : Z := if (z =? 0)%Z then 0%Z else z.
Definition qOr0 (q : Q) : Q := if (Qnum q =? 0)%Z then 0 else q.

Definition zeroTokens : Tokens :=
  {| t_input := 0; t_cachedInput := 0; t_output := 0; t_total := 0 |}.
Definition zeroCosts : Costs :=
  {| c_input := 0; c_cachedInput := 0; c_output := 0; c_total := 0 |}.

(** The tokens of one call, as lines 477-482 (and 618-621) compute them. *)
Definition callTokens (usage : TokenUsage) : Tokens :=
  {| t_input := zOr0 (promptTokens usage) - orZero (cachedTokens usage);
     t_cachedInput := orZero (cachedTokens usage);
     t_output := zOr0 (completionTokens usage);
     t_total := zOr0 (totalTokens usage) |}.

(** The costs of one call, as lines 483-486 (and 624-627) read them. *)
Definition callCosts (cost : CostBreakdown) : Costs :=
  {| c_input := qOr0 (inputCost cost);
     c_cachedInput := qOr0 (cachedInputCost cost);
     c_output := qOr0 (outputCost cost);
     c_total := qOr0 (totalCost cost) |}.

Definition addTokens (a b : Tokens) : Tokens :=
  {| t_input := t_input a + t_input b;
     t_cachedInput := t_cachedInput a + t_cachedInput b;
     t_output := t_output a + t_output b;
     t_total := t_total a + t_total b |}.

Definition addCosts (a b : Costs) : Costs :=
  {| c_input := c_input a + c_input b;
     c_cachedInput := c_cachedInput a + c_cachedInput b;
     c_output := c_output a + c_output b;
     c_total := c_total a + c_total b |}.

(** The body of the [forEach] over the results of a step ([+=] on each
    field). *)
Definition addCall (stats : StepCostStatistics) (r : StepOutcome) : StepCostStatistics :=
  {| step := step stats; stepName := stepName stats; model := model stats;
     calls := calls stats;
     tokens := addTokens (tokens stats) (callTokens (so_usage r));
     cost_ := addCosts (cost_ stats) (callCosts (so_cost r)) |}.

Definition stepStats (n : nat) (name modelName : jsstr) (results : list StepOutcome)
  : StepCostStatistics :=
  fold_left addCall results
    {| step := n; stepName := name; model := Some modelName;
       calls := length results; tokens := zeroTokens; cost_ := zeroCosts |}.

Definition singleCallStats (n : nat) (name modelName : jsstr)
  (usage : TokenUsage) (cost : CostBreakdown) : StepCostStatistics :=
  {| step := n; stepName := name; model := Some modelName; calls := 1;
     tokens := callTokens usage; cost_ := callCosts cost |}.

(** The body of the final [forEach] over [costStatistics.steps]. *)
Definition addStep (total : Totals) (s : StepCostStatistics) : Totals :=
  {| total_tokens_ := addTokens (total_tokens_ total) (tokens s);
     total_cost := addCosts (total_cost total) (cost_ s) |}.

Definition zeroTotals : Totals := {| total_tokens_ := zeroTokens; total_cost := zeroCosts |}.

(** ** The orchestrator *)

Definition isValidDocument (doc : DocumentProcessingResult) : bool :=
  negb (strTruthy (error doc)) && optTruthy (legalPositionParsed doc).

Definition step0Results (files : list File) : list StepOutcome :=
  mapi (fun index file => processDocumentStep0 index (file_fileName file) (file_buffer file))
       files.

Definition step0Documents (files : list File) : list DocumentProcessingResult :=
  map so_result (step0Results files).

Definition step0Stats (files : list File) : StepCostStatistics :=
  stepStats 0 (js "Извлечение правовых позиций") MODEL_STEP0 (step0Results files).

Definition step1Results (documents : list DocumentProcessingResult) : list StepOutcome :=
  mapi (fun index doc => processStep1 index doc) (filter isValidDocument documents).

Definition step1Stats (documents : list DocumentProcessingResult) : StepCostStatistics :=
  stepStats 1 (js "Создание карточек дел") MODEL_STEP1 (step1Results documents).

(** Lines 532-535: the merge by file name. *)
Definition mergeByFileName (documents documentsWithCards : list DocumentProcessingResult)
  : list DocumentProcessingResult :=
  map (fun doc =>
         match find (fun d => JsString.eqb (fileName d) (fileName doc)) documentsWithCards with
         | Some withCard => withCard
         | None => doc
         end) documents.

Definition updatedDocuments (files : list File) : list DocumentProcessingResult :=
  let documents := step0Documents files in
  mergeByFileName documents (map so_result (step1Results documents)).

(** Lines 565-567:
    [updatedDocuments.filter((doc) => doc.caseCard).map((doc) => doc.caseCard!)]. *)
Definition cardsOf (docs : list DocumentProcessingResult) : list CaseCard :=
  map (fun doc => match caseCard doc with
                  | Some card => card
                  | None => JNull
                  end)
      (filter (fun doc => optTruthy (caseCard doc)) docs).

Definition step3Stats (r : Step3Result) : StepCostStatistics :=
  singleCallStats 3 (js "Создание скелета обзора") MODEL_STEP3 (s3_usage r) (s3_cost r).

Definition step4Stats (r : Step4Result) : StepCostStatistics :=
  singleCallStats 4 (js "Генерация финального обзора") MODEL_STEP4 (s4_usage r) (s4_cost r).

(** The body of the [try] of [processDocumentsPipeline], with the journal
    of the stage functions it invoked. *)
Definition pipelineBody (files : list File) : list Call * Result PipelineResult :=
  let documents := step0Documents files in
  let step0Stats := step0Stats files in
  let journal0 := mapi (fun index _ => CallStep0 index) files in
  let hasValidDocuments := existsb isValidDocument documents in
  if negb hasValidDocuments then
    (journal0,
     ok {| documents := documents;
           caseCards := [];
           reviewSkeleton := None;
           review := [];
           costStatistics :=
             Some {| steps := [step0Stats];
                     total := {| total_tokens_ :=
                                   {| t_input := t_input (tokens step0Stats);
                                      t_cachedInput := t_cachedInput (tokens step0Stats);
                                      t_output := t_output (tokens step0Stats);
                                      t_total := t_total (tokens step0Stats) |};
                                 total_cost := cost_ step0Stats |} |};
           error_ := Some (js "Все документы обработаны с ошибками") |})
  else
  let journal1 :=
    journal0 ++ map (fun doc => CallStep1 (fileName doc)) (filter isValidDocument documents) in
  let updatedDocuments := updatedDocuments files in
  let step1Stats := step1Stats documents in
  let steps01 := [step0Stats; step1Stats] in
  let caseCards := cardsOf updatedDocuments in
  if (length caseCards =? 0)%nat then
    (journal1,
     ok {| documents := updatedDocuments;
           caseCards := [];
           reviewSkeleton := None;
           review := [];
           costStatistics :=
             Some {| steps := steps01;
                     total := {| total_tokens_ :=
                                   addTokens (tokens step0Stats) (tokens step1Stats);
                                 total_cost :=
                                   addCosts (cost_ step0Stats) (cost_ step1Stats) |} |};
           error_ := Some (js "Не удалось создать карточки дел") |})
  else
  let groupedCards := processStep2 caseCards in
  let journal3 := journal1 ++ [CallStep2; CallStep3] in
  match processStep3 groupedCards updatedDocuments with
  | inl e => (journal3, throw e)
  | inr step3Result =>
      let skeleton := s3_skeleton step3Result in
      let steps013 := steps01 ++ [step3Stats step3Result] in
      let journal4 := journal3 ++ [CallStep4] in
      match processStep4 skeleton groupedCards updatedDocuments with
      | inl e => (journal4, throw e)
      | inr step4Result =>
          let review := s4_review step4Result in
          let steps0134 := steps013 ++ [step4Stats step4Result] in
          let total := fold_left addStep steps0134 zeroTotals in
          let journal5 := journal4 ++ [CallSave] in
          match fs_saveResults env updatedDocuments skeleton review with
          | inl e => (journal5, throw e)
          | inr _ =>
              (journal5,
               ok {| documents := updatedDocuments;
                     caseCards := groupedCards;
                     reviewSkeleton := Some skeleton;
                     review := review;
                     costStatistics := Some {| steps := steps0134; total := total |};
                     error_ := None |})
          end
      end
  end.

(** The [catch] of lines 685-699. *)
Definition caught (error : Exn) : PipelineResult :=
  {| documents := [];
     caseCards := [];
     reviewSkeleton := None;
     review := [];
     costStatistics := Some {| steps := []; total := zeroTotals |};
     error_ := Some (exn_message error) |}.

Definition processDocumentsPipeline (files : list File) : PipelineResult :=
  match snd (pipelineBody files) with
  | inr result => result
  | inl error => caught error
  end.

(** The stage functions a run invoked. *)
Definition journal (files : list File) : list Call := fst (pipelineBody files).

End Run.

(** ** Vocabulary for statements about a run *)

(** The sum of one token field, and of one cost field, over a list of
    step entries. *)
Definition sumZ (f : StepCostStatistics -> Z) (l : list StepCostStatistics) : Z :=
  fold_left (fun acc s => (acc + f s)%Z) l 0%Z.

Definition sumQ (f : StepCostStatistics -> Q) (l : list StepCostStatistics) : Q :=
  fold_left (fun acc s => acc + f s) l 0.

(** The record a document ends stages 0 and 1 with when it is processed
    on its own: its stage-0 record if that is not usable, else the
    outcome of the stage-1 call at position [pos] on it. *)
Definition ownOutcome (env : Env) (pos : nat) (doc : DocumentProcessingResult)
  : DocumentProcessingResult :=
  if isValidDocument doc then so_result (processStep1 env pos doc) else doc.

(** A stage-0 record named [name] that stage 1 is run on. *)
Definition usableNamesake (name : jsstr) (doc : DocumentProcessingResult) : bool :=
  JsString.eqb (fileName doc) name && isValidDocument doc.

(** The position, among the stage-1 calls, of the call made for the
    document at index [i]. *)
Definition step1Position (documents : list DocumentProcessingResult) (i : nat) : nat :=
  length (filter isValidDocument (firstn i documents)).

End Pipeline.

(* ===================================================================== *)
(** * Concrete runs

    Simulated collaborators used to evaluate the model on explicit
    inputs. *)
(* ===================================================================== *)

Module Scenarios.

Import LlmClient Pipeline.
Local Open Scope Q_scope.

(** ** Simulated providers for the invoker *)





Definition serverError : Exn :=
  {| exn_message := js "500 Internal Server Error"; exn_status := Some 500%Z;
     exn_code := None |}.


Definition someUsage : RawUsage :=
  {| prompt_tokens := Some 1200%Z; completion_tokens := Some 300%Z;
     cached_tokens := Some 200%Z; total_tokens := Some 1500%Z |}.

Definition answer (text : jsstr) : Reply :=
  Completed {| message_content := Some text; response_usage := Some someUsage |}.






(** ** Simulated collaborators for the pipeline *)

Definition BAD_BUFFER : Buffer := [0%N].
Definition GOOD_BUFFER : Buffer := [80%N; 75%N].

Definition A_DOCX : jsstr := Eval cbv in js "a.docx".
Definition B_DOCX : jsstr := Eval cbv in js "b.docx".
Definition C_DOCX : jsstr := Eval cbv in js "c.docx".

Definition zipError : Exn := newError (js "Can't find end of central directory").

Definition mammoth (buffer : Buffer) : Result jsstr :=
  match buffer with
  | 0%N :: _ => throw zipError
  | _ => ok (js "Решение суда")
  end.

Definition fenced (v : JSON) : jsstr :=
  js "Ответ:" ++ NL ++ JSON_FENCE_OPEN ++ SmallJson.stringify v ++ JSON_FENCE_CLOSE.

(** A stage-0 answer: a position with (or without) a case number. *)
Definition positionWith (number : jsstr) : JSON :=
  JObj [ (js "level1", JObj [ (js "branch", JStr (js "civil"));
                              (js "case_number", JStr number) ]) ].

Definition positionWithout : JSON :=
  JObj [ (js "level1", JObj [ (js "branch", JStr (js "civil")) ]) ].

(** A stage-1 answer: a card that leaves the case number out. *)
Definition cardAnswer : JSON :=
  JObj [ (js "summary", JStr (js "lease dispute"));
         (js "keyFindings", JArr [JStr (js "f1")] []);
         (js "appliedNorms", JStr (js "art. 606"));
         (js "result", JStr (js "granted")) ].

Definition skeletonAnswer : JSON :=
  JObj [ (js "legalQuestion", JStr (js "q"));
         (js "normativeBase", JArr [] []);
         (js "approaches", JArr [] []);
         (js "discrepancies", JObj []);
         (js "trends", JObj []) ].

Definition REVIEW : jsstr := Eval cbv in js "# Review".
Definition CASE_A : jsstr := Eval cbv in js "A40-1/2024".

Definition baseEnv (provider : nat -> nat -> Provider) : Env :=
  {| mammoth_convertToMarkdown := mammoth;
     loadPromptWithParts := fun _ => ok (js "SYSTEM", js "USER");
     haveClient := true;
     provider := provider;
     JSON_parse := SmallJson.parse;
     JSON_stringify := SmallJson.stringify2;
     typeErrorMessage := fun _ => js "Cannot read properties of null";
     fs_saveResults := fun _ _ _ => ok tt |}.

(** Every stage is served. *)
Definition healthyProvider : nat -> nat -> Provider :=
  fun s _ _ _ =>
    match s with
    | 0%nat => answer (fenced (positionWith CASE_A))
    | 1%nat => answer (fenced cardAnswer)
    | 3%nat => answer (fenced skeletonAnswer)
    | _ => answer REVIEW
    end.

(** Stages 0 and 1 are served, the stage-3 call is refused. *)
Definition step3Down : nat -> nat -> Provider :=
  fun s i n r =>
    match s with
    | 3%nat => Rejected serverError
    | _ => healthyProvider s i n r
    end.

(** The first stage-1 call gets prose without JSON; the position of the
    second surviving document carries no case number. *)
Definition firstCardFails : nat -> nat -> Provider :=
  fun s i n r =>
    match s, i with
    | 0%nat, 0%nat => answer (fenced (positionWith CASE_A))
    | 0%nat, _ => answer (fenced positionWithout)
    | 1%nat, 0%nat => answer (js "I cannot help with that")
    | _, _ => healthyProvider s i n r
    end.

Definition file (name : jsstr) (buffer : Buffer) : File :=
  {| file_fileName := name; file_buffer := buffer |}.

Definition oneGood : list File := [file A_DOCX GOOD_BUFFER].
Definition twoGood : list File := [file A_DOCX GOOD_BUFFER; file B_DOCX GOOD_BUFFER].
Definition firstBad : list File := [file A_DOCX BAD_BUFFER; file B_DOCX GOOD_BUFFER].
Definition middleBad : list File :=
  [file A_DOCX GOOD_BUFFER; file B_DOCX BAD_BUFFER; file C_DOCX GOOD_BUFFER].
Definition allBad : list File := [file A_DOCX BAD_BUFFER; file B_DOCX BAD_BUFFER].
(** Two uploads under one name; the first cannot be converted. *)
Definition namesakes : list File := [file A_DOCX BAD_BUFFER; file A_DOCX GOOD_BUFFER].

(** An object with a fence inside a string, and a plain one. *)
Definition tricky : JSON := JObj [(js "note", JStr (js "use ``` for code"))].
Definition plain : JSON := JObj [(js "a", JNum (inject_Z 1))].

(** The JSON text of [plain] between its braces. *)
Definition plainInside : jsstr :=
  Eval cbv in removelast (tl (SmallJson.stringify plain)).

Definition PROSE_BEFORE : jsstr := Eval cbv in js "Ответ модели: ".
Definition PROSE_AFTER : jsstr := Eval cbv in js " (конец ответа)".
Definition PROSE_WITH_FENCE : jsstr := Eval cbv in js "As in ```json {} ``` before: ".

End Scenarios.

(* ===================================================================== *)
(** * Facts *)
(* ===================================================================== *)

Import LlmClient Pipeline Scenarios.

Close Scope Q_scope.
Local Open Scope nat_scope.
Local Open Scope list_scope.

(** ** Strings *)

Lemma eqb_eq (a b : jsstr) : JsString.eqb a b = true <-> a = b.
Proof.
  unfold JsString.eqb. destruct (list_eq_dec N.eq_dec a b); split; auto; discriminate.
Qed.

Lemma eqb_refl (a : jsstr) : JsString.eqb a a = true.
Proof. now apply eqb_eq. Qed.

Lemma trimStart_app_solid (a b : jsstr) (c : N) :
  isWhiteSpace c = false -> trimStart (a ++ c :: b) = trimStart a ++ c :: b.
Proof.
  intros Hc. induction a as [|x a IH]; simpl.
  - now rewrite Hc.
  - destruct (isWhiteSpace x); [exact IH|reflexivity].
Qed.

Lemma trimEnd_app_solid (a b : jsstr) (c : N) :
  isWhiteSpace c = false -> trimEnd (a ++ c :: b) = a ++ c :: trimEnd b.
Proof.
  intros Hc. unfold trimEnd.
  rewrite rev_app_distr. simpl. rewrite <- app_assoc. simpl.
  rewrite trimStart_app_solid by exact Hc.
  rewrite rev_app_distr. simpl. now rewrite rev_involutive, <- app_assoc.
Qed.

Lemma trim_solid (a m b : jsstr) (c d : N) :
  isWhiteSpace c = false -> isWhiteSpace d = false ->
  trim (a ++ c :: m ++ d :: b) = trimStart a ++ c :: m ++ d :: trimEnd b.
Proof.
  intros Hc Hd. unfold trim. rewrite trimStart_app_solid by exact Hc.
  replace (trimStart a ++ c :: m ++ d :: b) with ((trimStart a ++ c :: m) ++ d :: b)
    by now rewrite <- app_assoc.
  rewrite trimEnd_app_solid by exact Hd. now rewrite <- app_assoc.
Qed.

Lemma stripPrefix_app (p t : jsstr) : stripPrefix false p (p ++ t) = Some t.
Proof.
  induction p as [|x p IH]; simpl; [reflexivity|].
  unfold chrMatches. now rewrite N.eqb_refl.
Qed.

Lemma includes_unfold (p s : jsstr) :
  includes p s = match stripPrefix false p s with
                 | Some _ => true
                 | None => match s with
                           | _ :: t => includes p t
                           | [] => false
                           end
                 end.
Proof. destruct s; reflexivity. Qed.

Lemma includes_app (p a t : jsstr) : includes p (a ++ p ++ t) = true.
Proof.
  induction a as [|x a IH]; rewrite includes_unfold.
  - simpl. now rewrite stripPrefix_app.
  - simpl app. destruct (stripPrefix false p _); auto.
Qed.

Lemma includes_false_head (p s : jsstr) :
  includes p s = false -> stripPrefix false p s = None.
Proof. destruct s; simpl; destruct (stripPrefix false p _); auto; discriminate. Qed.

Lemma includes_false_tail (p : jsstr) (c : N) (s : jsstr) :
  includes p (c :: s) = false -> includes p s = false.
Proof. simpl. destruct (stripPrefix false p (c :: s)); auto; discriminate. Qed.

Lemma includes_false_trimStart (p s : jsstr) :
  includes p s = false -> includes p (trimStart s) = false.
Proof.
  induction s as [|c s IH]; intros H; simpl; [exact H|].
  destruct (isWhiteSpace c); [|exact H].
  apply IH. eapply includes_false_tail; eauto.
Qed.

Lemma last_after_prefix (s1 : jsstr) (c : N) (s2 : jsstr) (d : N) :
  last (s1 ++ c :: s2) d = last (c :: s2) d.
Proof.
  induction s1 as [|x s1 IH]; [reflexivity|].
  simpl app. rewrite <- IH. simpl. destruct (s1 ++ c :: s2) eqn:E; [|reflexivity].
  destruct s1; discriminate.
Qed.

(** Case analysis on every character test of the goal. *)
Ltac split_chars :=
  repeat match goal with
         | |- context [chrMatches false ?a ?b] => destruct (chrMatches false a b)
         end.

(** A text in which the marker does not occur cannot start an occurrence
    that runs into a following marker. *)
Lemma fence_json_no_straddle (c : N) (s rest : jsstr) :
  includes FENCE_JSON (c :: s) = false ->
  stripPrefix false FENCE_JSON ((c :: s) ++ FENCE_JSON ++ rest) = None.
Proof.
  intros H. apply includes_false_head in H. revert H.
  destruct s as [|c1 [|c2 [|c3 [|c4 [|c5 [|c6 s]]]]]];
    unfold FENCE_JSON; simpl; split_chars; intros H; try discriminate H; reflexivity.
Qed.

(** ** The matcher *)

Lemma search_after_clean_prefix (p : jsstr) (r : list Item) (ps : list jsstr)
  (rest aft : jsstr) :
  (forall c s, includes p (c :: s) = false ->
               stripPrefix false p ((c :: s) ++ p ++ rest) = None) ->
  matchHere false (Str p :: r) (p ++ rest) = Some (ps, aft) ->
  forall pre, includes p pre = false ->
  search false (Str p :: r) (pre ++ p ++ rest)
  = Some {| before := pre; pieces := ps; after := aft |}.
Proof.
  intros Hstraddle Hhere. induction pre as [|c pre IH]; intros Hpre.
  - simpl app. destruct (p ++ rest) eqn:E; simpl search; simpl in Hhere;
      rewrite Hhere; reflexivity.
  - simpl app. simpl search. change (c :: pre ++ p ++ rest) with ((c :: pre) ++ p ++ rest).
    simpl matchHere. rewrite (Hstraddle c pre Hpre).
    simpl app. rewrite IH; [reflexivity|]. eapply includes_false_tail; eauto.
Qed.

(** The lazy star stops at the first place where the continuation
    matches. *)
Lemma lazy_any_stops (k : Cont) (t : jsstr) r :
  k t = Some r ->
  forall s,
  (forall s1 c s2, s = s1 ++ c :: s2 -> k ((c :: s2) ++ t) = None) ->
  starLoop false AnyChar k (s ++ t) = Some (s, r).
Proof.
  intros Hk. induction s as [|c s IH]; intros Hnone.
  - simpl app. destruct t; simpl; rewrite Hk; reflexivity.
  - simpl app. simpl starLoop.
    change (c :: s ++ t) with ((c :: s) ++ t).
    rewrite (Hnone [] c s eq_refl). rewrite IH; [reflexivity|].
    intros s1 c' s2 E. apply (Hnone (c :: s1) c' s2). now rewrite E.
Qed.

(** The greedy star of any character before a closing brace runs to the
    last brace. *)
Lemma greedy_any_to_last_brace (mid : jsstr) :
  starLoop true AnyChar (matchHere false [Str RBRACE]) (mid ++ RBRACE)
  = Some (mid, ([RBRACE], [])).
Proof.
  induction mid as [|c mid IH].
  - reflexivity.
  - simpl app. simpl starLoop. simpl in IH. rewrite IH. reflexivity.
Qed.

(** Inside a text that ends with a closing brace and contains no fence,
    [\s*```] does not match. *)
Lemma closing_not_inside (post : jsstr) :
  forall s, s <> [] -> last s 0%N = 125%N -> includes FENCE s = false ->
  starLoop true Space (matchHere false [Str FENCE]) (s ++ NL ++ FENCE ++ post) = None.
Proof.
  induction s as [|c s IH]; intros Hne Hlast Hinc; [congruence|].
  assert (Hstop : matchHere false [Str FENCE] ((c :: s) ++ NL ++ FENCE ++ post) = None).
  { apply includes_false_head in Hinc. revert Hinc Hlast.
    destruct s as [|c1 [|c2 s]]; unfold FENCE, NL; simpl.
    - intros _ ->. reflexivity.
    - intros _ ->. destruct (chrMatches false 96 c); reflexivity.
    - intros H _. revert H. split_chars; intros H; try discriminate H; reflexivity. }
  revert Hstop IH.
  generalize (matchHere false [Str FENCE]) as k3. generalize (NL ++ FENCE ++ post) as T.
  intros T k3 Hstop IH.
  simpl app in *. simpl starLoop. rewrite Hstop.
  destruct (isWhiteSpace c) eqn:Hw; [|reflexivity].
  destruct s as [|c1 s].
  - simpl in Hlast. subst c. discriminate Hw.
  - rewrite IH; [reflexivity|discriminate|exact Hlast|].
    eapply includes_false_tail; eauto.
Qed.

Lemma closing_unfold (s : jsstr) :
  closing s = match starLoop true Space (matchHere false [Str FENCE]) s with
              | Some (p, (ps, rest)) => Some (p :: ps, rest)
              | None => None
              end.
Proof. reflexivity. Qed.

Lemma json_block_matches (mid post : jsstr) :
  let J := LBRACE ++ mid ++ RBRACE in
  includes FENCE J = false ->
  matchHere false (items reJsonBlock) (FENCE_JSON ++ NL ++ J ++ NL ++ FENCE ++ post)
  = Some ([FENCE_JSON; NL; J; NL; FENCE], post).
Proof.
  intros J HJ.
  assert (Hlazy : starLoop false AnyChar closing (J ++ NL ++ FENCE ++ post)
                  = Some (J, ([NL; FENCE], post))).
  { apply lazy_any_stops; [reflexivity|].
    intros s1 c s2 E. rewrite closing_unfold.
    rewrite closing_not_inside; [reflexivity|discriminate| |].
    - assert (Hl : last J 0%N = 125%N).
      { unfold J. rewrite app_assoc. apply last_last. }
      rewrite E in Hl. now rewrite last_after_prefix in Hl.
    - clear -HJ E. rewrite E in HJ. clear E. induction s1 as [|x s1 IH]; [exact HJ|].
      apply IH. eapply includes_false_tail; exact HJ. }
  unfold reJsonBlock, items. unfold FENCE_JSON at 1 2. simpl.
  unfold closing in Hlazy. simpl in Hlazy. rewrite Hlazy. reflexivity.
Qed.

Lemma trim_braced (mid : jsstr) : trim (LBRACE ++ mid ++ RBRACE) = LBRACE ++ mid ++ RBRACE.
Proof.
  unfold trim, LBRACE, RBRACE. simpl app.
  replace (trimStart (123%N :: mid ++ [125%N])) with ((123%N :: mid) ++ 125%N :: [])
    by reflexivity.
  rewrite trimEnd_app_solid by reflexivity. reflexivity.
Qed.

Lemma braceSpan_braced (mid : jsstr) :
  braceSpan (LBRACE ++ mid ++ RBRACE) = LBRACE ++ mid ++ RBRACE.
Proof.
  unfold braceSpan, exec, reBraces. simpl.
  pose proof (greedy_any_to_last_brace mid) as H. simpl in H. rewrite H. reflexivity.
Qed.

(** The candidate text both variants of the procedure hand to
    [JSON.parse]. *)
Lemma candidate_of_fenced_block (pre post mid : jsstr) :
  let J := LBRACE ++ mid ++ RBRACE in
  includes FENCE_JSON pre = false ->
  includes FENCE J = false ->
  extractStep0 (pre ++ JSON_FENCE_OPEN ++ J ++ JSON_FENCE_CLOSE ++ post) = J
  /\ extractStep13 (pre ++ JSON_FENCE_OPEN ++ J ++ JSON_FENCE_CLOSE ++ post) = J.
Proof.
  intros J Hpre HJ.
  set (raw := pre ++ JSON_FENCE_OPEN ++ J ++ JSON_FENCE_CLOSE ++ post).
  assert (Htrim : trim raw
                  = trimStart pre ++ FENCE_JSON ++ NL ++ J ++ NL ++ FENCE ++ trimEnd post).
  { set (m := [96%N; 96%N; 106%N; 115%N; 111%N; 110%N; 10%N] ++ J ++ [10%N; 96%N; 96%N]).
    replace raw with (pre ++ 96%N :: m ++ 96%N :: post)
      by (unfold raw, m, JSON_FENCE_OPEN, JSON_FENCE_CLOSE, FENCE_JSON, FENCE, NL;
          simpl; now rewrite <- !app_assoc).
    rewrite trim_solid by reflexivity.
    unfold m, FENCE_JSON, FENCE, NL. simpl. now rewrite <- !app_assoc. }
  assert (Hinc : includes FENCE_JSON (trim raw) = true)
    by (rewrite Htrim; apply includes_app).
  assert (Hexec : exec reJsonBlock (trim raw)
                  = Some {| before := trimStart pre;
                            pieces := [FENCE_JSON; NL; J; NL; FENCE];
                            after := trimEnd post |}).
  { rewrite Htrim. unfold exec. simpl anchored. cbv iota.
    apply search_after_clean_prefix.
    - intros c s. apply fence_json_no_straddle.
    - apply (json_block_matches mid (trimEnd post) HJ).
    - now apply includes_false_trimStart. }
  unfold extractStep0, extractStep13. fold raw. rewrite Hinc, Hexec.
  unfold group1, piece. simpl nth. unfold J.
  rewrite trim_braced, braceSpan_braced. split; reflexivity.
Qed.

(** C7 (amended). If the prose before the fenced block contains no
    [```json] marker, and the JSON text [J] of the object (an opening
    brace, anything, a closing brace) contains no fence, then the
    extraction procedure of stage 0, applied to the block embedded in any
    prose, hands exactly [J] to [JSON.parse] and returns the object that
    [JSON.parse] returns for [J]. *)
Theorem fenced_object_is_recovered (env : Env) (pre post mid : jsstr) (O : JSON) :
  let J := LBRACE ++ mid ++ RBRACE in
  includes FENCE_JSON pre = false ->
  includes FENCE J = false ->
  JSON_parse env J = inr O ->
  (exists props, O = JObj props) ->
  extractStep0 (pre ++ JSON_FENCE_OPEN ++ J ++ JSON_FENCE_CLOSE ++ post) = J
  /\ extractJson env (pre ++ JSON_FENCE_OPEN ++ J ++ JSON_FENCE_CLOSE ++ post) = inr O.
Proof.
  intros J Hpre HJ Hparse [props ->].
  destruct (candidate_of_fenced_block pre post mid Hpre HJ) as [H0 _].
  split; [exact H0|].
  unfold extractJson. fold J in H0. rewrite H0.
  unfold parseLegalPosition. rewrite Hparse. reflexivity.
Qed.

(** ** The model invoker *)

Section InvokerFacts.

Variable p : Provider.
Variables sys user model : jsstr.

Local Notation "'flex'" := (requestParams sys user model true).
Local Notation "'std'" := (requestParams sys user model false).
Local Notation "'retry'" := (requestParams sys user GPT_4O false).












End InvokerFacts.

(** ** The orchestrator *)

Section RunFacts.

Variable env : Env.

Lemma Qplus_0_l_eq (x : Q) : (0 + x)%Q = x.
Proof. destruct x as [n d]. unfold Qplus. simpl. now rewrite Z.mul_1_r. Qed.

Lemma addCall_fold_step results : forall acc,
  step (fold_left addCall results acc) = step acc.
Proof. induction results as [|r t IH]; intros acc; simpl; [reflexivity|now rewrite IH]. Qed.

Lemma stepStats_step n name m results : step (stepStats n name m results) = n.
Proof. unfold stepStats. now rewrite addCall_fold_step. Qed.

Lemma tokens_eta (t : Tokens) :
  {| t_input := t_input t; t_cachedInput := t_cachedInput t;
     t_output := t_output t; t_total := t_total t |} = t.
Proof. now destruct t. Qed.

(** C3. When no document leaves stage 0 with a usable legal position, the
    run invokes stage 0 only and returns the stage-0 records, an empty
    review, no case cards, a non-empty error message, and cost statistics
    whose only entry is the stage-0 entry and whose total is that entry. *)
Theorem stops_after_step0_when_nothing_usable (files : list File) :
  existsb isValidDocument (step0Documents env files) = false ->
  let r := processDocumentsPipeline env files in
  let s0 := step0Stats env files in
  review r = []
  /\ caseCards r = []
  /\ (exists msg, error_ r = Some msg /\ msg <> [])
  /\ documents r = step0Documents env files
  /\ (exists cs, costStatistics r = Some cs
                 /\ steps cs = [s0] /\ step s0 = 0
                 /\ total_tokens_ (total cs) = tokens s0
                 /\ total_cost (total cs) = cost_ s0)
  /\ journal env files = mapi (fun index _ => CallStep0 index) files.
Proof.
  intros H. unfold processDocumentsPipeline, journal, pipelineBody.
  rewrite H. simpl. repeat split.
  - eexists. split; [reflexivity|]. discriminate.
  - eexists. split; [reflexivity|]. simpl. repeat split.
    + apply stepStats_step.
    + apply tokens_eta.
Qed.

(** What a run returns as statistics, path by path. *)
Lemma costStatistics_cases (files : list File) :
  let r := processDocumentsPipeline env files in
  exists cs, costStatistics r = Some cs /\
    (steps cs = [] /\ total cs = zeroTotals
     \/ (exists s0, steps cs = [s0]
                    /\ total_tokens_ (total cs) = tokens s0
                    /\ total_cost (total cs) = cost_ s0)
     \/ (exists s0 s1, steps cs = [s0; s1]
                       /\ total_tokens_ (total cs) = addTokens (tokens s0) (tokens s1)
                       /\ total_cost (total cs) = addCosts (cost_ s0) (cost_ s1))
     \/ total cs = fold_left addStep (steps cs) zeroTotals).
Proof.
  unfold processDocumentsPipeline, pipelineBody.
  destruct (negb (existsb isValidDocument (step0Documents env files))).
  { simpl. eexists; split; [reflexivity|]. right; left. eexists; simpl.
    split; [reflexivity|]. split; [apply tokens_eta|reflexivity]. }
  destruct (length (cardsOf (updatedDocuments env files)) =? 0).
  { simpl. eexists; split; [reflexivity|]. right; right; left.
    do 2 eexists; simpl. repeat split. }
  destruct (processStep3 _ _ _) as [e3|r3];
    [simpl; eexists; split; [reflexivity|]; left; split; reflexivity|].
  destruct (processStep4 _ _ _ _) as [e4|r4];
    [simpl; eexists; split; [reflexivity|]; left; split; reflexivity|].
  destruct (fs_saveResults _ _ _ _) as [e5|[]];
    [simpl; eexists; split; [reflexivity|]; left; split; reflexivity|].
  simpl. eexists; split; [reflexivity|]. right; right; right. reflexivity.
Qed.

(** The final [forEach] computes, field by field, the sums over the
    steps. *)
Lemma addStep_fold_fields (l : list StepCostStatistics) : forall acc,
  let t := fold_left addStep l acc in
  t_input (total_tokens_ t)
    = fold_left (fun a s => (a + t_input (tokens s))%Z) l (t_input (total_tokens_ acc))
  /\ t_cachedInput (total_tokens_ t)
    = fold_left (fun a s => (a + t_cachedInput (tokens s))%Z) l
        (t_cachedInput (total_tokens_ acc))
  /\ t_output (total_tokens_ t)
    = fold_left (fun a s => (a + t_output (tokens s))%Z) l (t_output (total_tokens_ acc))
  /\ t_total (total_tokens_ t)
    = fold_left (fun a s => (a + t_total (tokens s))%Z) l (t_total (total_tokens_ acc))
  /\ c_input (total_cost t)
    = fold_left (fun a s => (a + c_input (cost_ s))%Q) l (c_input (total_cost acc))
  /\ c_cachedInput (total_cost t)
    = fold_left (fun a s => (a + c_cachedInput (cost_ s))%Q) l
        (c_cachedInput (total_cost acc))
  /\ c_output (total_cost t)
    = fold_left (fun a s => (a + c_output (cost_ s))%Q) l (c_output (total_cost acc))
  /\ c_total (total_cost t)
    = fold_left (fun a s => (a + c_total (cost_ s))%Q) l (c_total (total_cost acc)).
Proof.
  induction l as [|s l IH]; intros acc; simpl.
  - repeat split.
  - apply (IH (addStep acc s)).
Qed.

(** C6. In every result of [processDocumentsPipeline], each token field
    and each cost field of [costStatistics.total] is the sum of that field
    over the entries of [costStatistics.steps]. *)
Theorem total_is_the_sum_of_the_steps (files : list File) :
  exists cs,
    costStatistics (processDocumentsPipeline env files) = Some cs
    /\ t_input (total_tokens_ (total cs)) = sumZ (fun s => t_input (tokens s)) (steps cs)
    /\ t_cachedInput (total_tokens_ (total cs))
       = sumZ (fun s => t_cachedInput (tokens s)) (steps cs)
    /\ t_output (total_tokens_ (total cs)) = sumZ (fun s => t_output (tokens s)) (steps cs)
    /\ t_total (total_tokens_ (total cs)) = sumZ (fun s => t_total (tokens s)) (steps cs)
    /\ c_input (total_cost (total cs)) = sumQ (fun s => c_input (cost_ s)) (steps cs)
    /\ c_cachedInput (total_cost (total cs))
       = sumQ (fun s => c_cachedInput (cost_ s)) (steps cs)
    /\ c_output (total_cost (total cs)) = sumQ (fun s => c_output (cost_ s)) (steps cs)
    /\ c_total (total_cost (total cs)) = sumQ (fun s => c_total (cost_ s)) (steps cs).
Proof.
  destruct (costStatistics_cases files) as (cs & Hcs & Hcase).
  exists cs. split; [exact Hcs|].
  destruct Hcase as [[Hs Ht] | [(s0 & Hs & Ht & Hc) | [(s0 & s1 & Hs & Ht & Hc) | Ht]]].
  - rewrite Hs, Ht. unfold sumZ, sumQ. simpl. repeat split.
  - rewrite Hs, Ht, Hc. unfold sumZ, sumQ. simpl.
    rewrite !Qplus_0_l_eq. repeat split.
  - rewrite Hs, Ht, Hc. unfold sumZ, sumQ. simpl.
    rewrite !Qplus_0_l_eq. repeat split.
  - rewrite Ht. unfold sumZ, sumQ. apply (addStep_fold_fields (steps cs) zeroTotals).
Qed.

(** C5 (amended). A run that returns without a run-level error made the
    pass-through call of stage 2 and returns exactly four step entries,
    for the steps 0, 1, 3 and 4 in this order: none twice, none for
    stage 2. *)
Theorem completed_run_has_entries_0_1_3_4 (files : list File) :
  error_ (processDocumentsPipeline env files) = None ->
  In CallStep2 (journal env files)
  /\ exists cs, costStatistics (processDocumentsPipeline env files) = Some cs
                /\ map step (steps cs) = [0; 1; 3; 4].
Proof.
  unfold processDocumentsPipeline, journal, pipelineBody.
  destruct (negb (existsb isValidDocument (step0Documents env files)));
    [simpl; discriminate|].
  destruct (length (cardsOf (updatedDocuments env files)) =? 0); [simpl; discriminate|].
  destruct (processStep3 _ _ _) as [e3|r3]; [simpl; discriminate|].
  destruct (processStep4 _ _ _ _) as [e4|r4]; [simpl; discriminate|].
  destruct (fs_saveResults _ _ _ _) as [e5|[]]; [simpl; discriminate|].
  simpl. intros _. split.
  - rewrite !in_app_iff. simpl. auto 10.
  - eexists. split; [reflexivity|]. simpl.
    unfold Pipeline.step0Stats, Pipeline.step1Stats. now rewrite !stepStats_step.
Qed.

(** A failure of stage 3, of stage 4 or of the save step ends in the
    [catch]: the result carries the message and nothing else. *)
Lemma failure_after_the_merge (files : list File) (e : Exn) :
  snd (pipelineBody env files) = inl e ->
  processDocumentsPipeline env files = caught e
  /\ documents (processDocumentsPipeline env files) = []
  /\ costStatistics (processDocumentsPipeline env files)
     = Some {| steps := []; total := zeroTotals |}.
Proof.
  unfold processDocumentsPipeline. intros ->. repeat split.
Qed.

Lemma fileName_processDocumentStep0 index name buffer :
  fileName (so_result (processDocumentStep0 env index name buffer)) = name.
Proof.
  unfold processDocumentStep0.
  match goal with
  | |- context [match ?a with inl _ => _ | inr _ => _ end] => destruct a as [e|o] eqn:E
  end; [reflexivity|].
  revert E. unfold bind.
  repeat match goal with
  | |- context [match ?x with inl _ => _ | inr _ => _ end] => destruct x; try discriminate
  | |- context [match ?x with (_, _) => _ end] => destruct x
  end.
  all: intros E; inversion E; reflexivity.
Qed.

Lemma fileName_processStep1 pos doc :
  fileName (so_result (processStep1 env pos doc)) = fileName doc.
Proof.
  unfold processStep1.
  destruct (negb (optTruthy (legalPositionParsed doc))); [reflexivity|].
  match goal with
  | |- context [match ?a with inl _ => _ | inr _ => _ end] => destruct a as [e|o] eqn:E
  end; [reflexivity|].
  revert E. unfold bind.
  repeat match goal with
  | |- context [match ?x with inl _ => _ | inr _ => _ end] => destruct x; try discriminate
  | |- context [match ?x with (_, _) => _ end] => destruct x
  end.
  all: intros E; inversion E; reflexivity.
Qed.

(** Stage 0 keeps the input names, in input order. *)
Lemma step0Documents_names (files : list File) :
  map fileName (step0Documents env files) = map file_fileName files.
Proof.
  unfold step0Documents, step0Results, mapi. generalize 0.
  induction files as [|f files IH]; intros k; simpl; [reflexivity|].
  now rewrite fileName_processDocumentStep0, IH.
Qed.

Lemma find_in_step1Results (name : jsstr) (d : DocumentProcessingResult) l2 :
  forall l1 k,
  fileName d = name ->
  (forall x, In x l1 -> fileName x <> name) ->
  find (fun x => JsString.eqb (fileName x) name)
       (map so_result (mapi_from k (fun index doc => processStep1 env index doc)
                                 (l1 ++ d :: l2)))
  = Some (so_result (processStep1 env (k + length l1) d)).
Proof.
  induction l1 as [|a l1 IH]; intros k Hd Hl1; simpl.
  - rewrite fileName_processStep1, Hd, eqb_refl. now rewrite Nat.add_0_r.
  - rewrite fileName_processStep1.
    destruct (JsString.eqb (fileName a) name) eqn:E.
    + apply eqb_eq in E. exfalso. apply (Hl1 a); simpl; auto.
    + rewrite IH; auto.
      * now rewrite Nat.add_succ_r.
      * intros x Hx. apply Hl1. now right.
Qed.

Lemma find_none_in_step1Results (name : jsstr) :
  forall l k,
  (forall x, In x l -> fileName x <> name) ->
  find (fun x => JsString.eqb (fileName x) name)
       (map so_result (mapi_from k (fun index doc => processStep1 env index doc) l))
  = None.
Proof.
  induction l as [|a l IH]; intros k Hl; simpl; [reflexivity|].
  rewrite fileName_processStep1.
  destruct (JsString.eqb (fileName a) name) eqn:E.
  - apply eqb_eq in E. exfalso. apply (Hl a); simpl; auto.
  - apply IH. intros x Hx. apply Hl. now right.
Qed.

Lemma no_usableNamesake (name : jsstr) (l : list DocumentProcessingResult) :
  existsb (usableNamesake name) l = false ->
  forall x, In x (filter isValidDocument l) -> fileName x <> name.
Proof.
  intros H x Hx Hname. apply filter_In in Hx. destruct Hx as [Hx Hv].
  assert (Hex : existsb (usableNamesake name) l = true).
  { apply existsb_exists. exists x. split; [exact Hx|].
    unfold usableNamesake. rewrite Hv, Hname, eqb_refl. reflexivity. }
  congruence.
Qed.

(** Every return of the [try] body gives the merged list, or the stage-0
    records when the run stopped before the merge. *)
Lemma returned_documents (files : list File) r :
  snd (pipelineBody env files) = inr r ->
  documents r = if existsb isValidDocument (step0Documents env files)
                then updatedDocuments env files
                else step0Documents env files.
Proof.
  unfold pipelineBody. intros H.
  destruct (existsb isValidDocument (step0Documents env files));
    simpl in H; [|inversion H; reflexivity].
  destruct (length (cardsOf (updatedDocuments env files)) =? 0);
    [simpl in H; inversion H; reflexivity|].
  destruct (processStep3 _ _ _) as [e3|r3]; [simpl in H; discriminate|].
  destruct (processStep4 _ _ _ _) as [e4|r4]; [simpl in H; discriminate|].
  destruct (fs_saveResults _ _ _ _) as [e5|[]]; [simpl in H; discriminate|].
  simpl in H. inversion H. reflexivity.
Qed.

(** C10 (amended). The merge after stage 1 goes by file name alone.  In
    a result returned by the [try] body: if [d], at index [i], is the
    first stage-0 record of its name that stage 1 is run on, every
    position [j] whose record has that name holds the outcome of the
    stage-1 call made for [d]; if stage 1 is run on no record of that
    name, the position keeps its own stage-0 record. *)
Theorem merge_gives_first_surviving_namesake (files : list File) r :
  snd (pipelineBody env files) = inr r ->
  let docs := step0Documents env files in
  (forall i d j dj,
      nth_error docs i = Some d -> isValidDocument d = true ->
      existsb (usableNamesake (fileName d)) (firstn i docs) = false ->
      nth_error docs j = Some dj -> fileName dj = fileName d ->
      nth_error (documents r) j
      = Some (so_result (processStep1 env (step1Position docs i) d)))
  /\
  (forall j dj,
      nth_error docs j = Some dj ->
      existsb (usableNamesake (fileName dj)) docs = false ->
      nth_error (documents r) j = Some dj).
Proof.
  intros Hr docs. rewrite (returned_documents files r Hr). fold docs.
  split.
  - intros i d j dj Hi Hvalid Hfirst Hj Hname.
    assert (Hv : existsb isValidDocument docs = true).
    { apply existsb_exists. exists d. split; [|exact Hvalid].
      eapply nth_error_In; eauto. }
    rewrite Hv. unfold updatedDocuments, mergeByFileName, step1Results. fold docs.
    rewrite nth_error_map, Hj. simpl. rewrite Hname.
    destruct (nth_error_split docs i Hi) as (l1 & l2 & Hdocs & Hlen).
    assert (Hl1 : firstn i docs = l1).
    { rewrite Hdocs, <- Hlen.
      now rewrite firstn_app, Nat.sub_diag, firstn_all, app_nil_r. }
    unfold step1Position. rewrite Hl1 in *.
    rewrite Hdocs, filter_app. simpl. rewrite Hvalid.
    unfold mapi. rewrite find_in_step1Results; auto.
    now apply no_usableNamesake.
  - intros j dj Hj Hnone.
    destruct (existsb isValidDocument docs); [|exact Hj].
    unfold updatedDocuments, mergeByFileName, step1Results. fold docs.
    rewrite nth_error_map, Hj. simpl.
    unfold mapi. rewrite find_none_in_step1Results; auto.
    now apply no_usableNamesake.
Qed.

(** Whenever the run reaches stage 3 and stage 3 or stage 4 throws, the
    result is the one of the [catch]. *)
Lemma step3_or_step4_failure_is_caught (files : list File) (e : Exn) :
  existsb isValidDocument (step0Documents env files) = true ->
  cardsOf (updatedDocuments env files) <> [] ->
  let cards := processStep2 (cardsOf (updatedDocuments env files)) in
  processStep3 env cards (updatedDocuments env files) = inl e
  \/ (exists r3, processStep3 env cards (updatedDocuments env files) = inr r3
                 /\ processStep4 env (s3_skeleton r3) cards (updatedDocuments env files)
                    = inl e) ->
  processDocumentsPipeline env files = caught e.
Proof.
  intros Hv Hc cards H.
  unfold processDocumentsPipeline, pipelineBody. rewrite Hv. simpl negb. cbv iota.
  destruct (cardsOf (updatedDocuments env files)) as [|c l] eqn:E; [congruence|].
  simpl length. simpl Nat.eqb. cbv iota.
  unfold cards in H.
  destruct H as [H3 | (r3 & H3 & H4)].
  - rewrite H3. reflexivity.
  - rewrite H3. rewrite H4. reflexivity.
Qed.

Lemma mergeByFileName_names (docs withCards : list DocumentProcessingResult) :
  map fileName (mergeByFileName docs withCards) = map fileName docs.
Proof.
  unfold mergeByFileName. rewrite map_map. apply map_ext. intros d.
  destruct (find _ withCards) as [w|] eqn:E; [|reflexivity].
  apply find_some in E. destruct E as [_ E]. now apply eqb_eq in E.
Qed.

(** Every result returned by the [try] body holds one record per input
    file, under the input names, in input order. *)
Lemma returned_documents_mirror_input (files : list File) r :
  snd (pipelineBody env files) = inr r ->
  map fileName (documents r) = map file_fileName files.
Proof.
  intros H. rewrite (returned_documents files r H).
  destruct (existsb isValidDocument (step0Documents env files)).
  - unfold updatedDocuments. rewrite mergeByFileName_names. apply step0Documents_names.
  - apply step0Documents_names.
Qed.

End RunFacts.

(** ** Concrete runs *)

(** C1. One convertible document, stages 0 and 1 served, the stage-3 call
    refused: stages 0 and 1 ran and were charged, the merged list holds
    the document, and yet the result carries an empty [documents] array
    and empty, all-zero cost statistics beside the error. *)
Lemma step3_failure_returns_nothing :
  let env := baseEnv step3Down in
  let r := processDocumentsPipeline env oneGood in
  journal env oneGood = [CallStep0 0; CallStep1 A_DOCX; CallStep2; CallStep3]
  /\ calls (step0Stats env oneGood) = 1
  /\ t_total (tokens (step0Stats env oneGood)) = 1500%Z
  /\ t_total (tokens (step1Stats env (step0Documents env oneGood))) = 1500%Z
  /\ length (updatedDocuments env oneGood) = 1
  /\ (exists msg, error_ r = Some msg /\ msg <> [])
  /\ documents r = []
  /\ costStatistics r = Some {| steps := []; total := zeroTotals |}.
Proof.
  vm_compute. repeat split. eexists. split; [reflexivity|discriminate].
Qed.

(** C2. Two convertible documents; the stage-1 call of the first one
    fails; the second has no case number.  The only card is the card of
    [b.docx], and the entry built for it before serialization carries the
    file name and the case number of [a.docx]. *)
Lemma card_gets_the_name_of_another_document :
  let env := baseEnv firstCardFails in
  let docs := updatedDocuments env twoGood in
  exists card entry,
    map fileName docs = [A_DOCX; B_DOCX]
    /\ map caseCard docs = [None; Some card]
    /\ map caseNumber docs = [Some (JStr CASE_A); Some (JStr [])]
    /\ cardsOf docs = [card]
    /\ cardsData env (cardsOf docs) docs = inr [entry]
    /\ getProp (js "fileName") entry = Some (JStr A_DOCX)
    /\ getProp (js "caseNumber") entry = Some (JStr CASE_A).
Proof.
  vm_compute. do 2 eexists. repeat split.
Qed.

(** C5, as stated, fails: a completed run went through stage 2 and has no
    entry for it. *)
Lemma step2_has_no_entry :
  let env := baseEnv healthyProvider in
  In CallStep2 (journal env oneGood)
  /\ exists cs, costStatistics (processDocumentsPipeline env oneGood) = Some cs
                /\ existsb (fun s => step s =? 2) (steps cs) = false.
Proof.
  vm_compute. split; [auto 10|]. eexists. split; reflexivity.
Qed.

(** C7, as stated, fails: an object with a fence inside a string, and an
    object after prose that shows a fenced block of its own, are not
    recovered, although [JSON.parse] reads their JSON text back. *)
Lemma fenced_object_is_not_always_recovered :
  let env := baseEnv healthyProvider in
  (JSON_parse env (SmallJson.stringify tricky) = inr tricky
   /\ extractJson env (JSON_FENCE_OPEN ++ SmallJson.stringify tricky ++ JSON_FENCE_CLOSE)
      <> inr tricky)
  /\
  (JSON_parse env (SmallJson.stringify plain) = inr plain
   /\ extractJson env (PROSE_WITH_FENCE
                        ++ JSON_FENCE_OPEN ++ SmallJson.stringify plain ++ JSON_FENCE_CLOSE)
      <> inr plain).
Proof.
  vm_compute. repeat split; discriminate.
Qed.

(** C9. Three documents, the conversion of the second one fails, the
    stage-3 call is refused: the merged list has the three records in
    input order, the second with its error, and the result returns
    none of them. *)
Lemma isolated_failure_then_step3_failure :
  let env := baseEnv step3Down in
  length middleBad = 3
  /\ map fileName (updatedDocuments env middleBad) = [A_DOCX; B_DOCX; C_DOCX]
  /\ map (fun d => strTruthy (error d)) (updatedDocuments env middleBad)
     = [false; true; false]
  /\ documents (processDocumentsPipeline env middleBad) = [].
Proof. vm_compute. repeat split. Qed.

(** The same batch when every call is served: three records in input
    order, stage 1 called for the first and the third only, and the
    second entry sent to stage 3 (the card of [c.docx]) named after the
    failed [b.docx]. *)
Lemma failed_document_named_in_step3 :
  let env := baseEnv healthyProvider in
  let r := processDocumentsPipeline env middleBad in
  map fileName (documents r) = [A_DOCX; B_DOCX; C_DOCX]
  /\ map (fun d => strTruthy (error d)) (documents r) = [false; true; false]
  /\ journal env middleBad
     = [CallStep0 0; CallStep0 1; CallStep0 2; CallStep1 A_DOCX; CallStep1 C_DOCX;
        CallStep2; CallStep3; CallStep4; CallSave]
  /\ exists e1 e2,
       cardsData env (caseCards r) (documents r) = inr [e1; e2]
       /\ getProp (js "fileName") e2 = Some (JStr B_DOCX).
Proof. vm_compute. repeat split. do 2 eexists. split; reflexivity. Qed.

(** C10, as stated, fails: when the first of two namesakes cannot be
    converted, it is the second document's own outcome that fills both
    positions. *)
Lemma later_namesake_fills_both_positions :
  let env := baseEnv healthyProvider in
  let docs := step0Documents env namesakes in
  let r := processDocumentsPipeline env namesakes in
  exists d0 d1,
    docs = [d0; d1]
    /\ fileName d0 = fileName d1
    /\ documents r = [ownOutcome env 0 d1; ownOutcome env 0 d1]
    /\ ownOutcome env 0 d0 <> ownOutcome env 0 d1.
Proof.
  vm_compute. do 2 eexists. repeat split. discriminate.
Qed.

(** ** The theorems at concrete inputs *)

(** [stops_after_step0_when_nothing_usable] on a batch of two files that
    cannot be converted. *)
Lemma stops_after_step0_when_nothing_usable_witness :
  existsb isValidDocument (step0Documents (baseEnv healthyProvider) allBad) = false
  /\ review (processDocumentsPipeline (baseEnv healthyProvider) allBad) = [].
Proof.
  assert (H : existsb isValidDocument (step0Documents (baseEnv healthyProvider) allBad)
              = false) by (vm_compute; reflexivity).
  split; [exact H|].
  exact (proj1 (stops_after_step0_when_nothing_usable (baseEnv healthyProvider) allBad H)).
Defined.



(** [completed_run_has_entries_0_1_3_4] on a run in which every call is
    served. *)
Lemma completed_run_has_entries_0_1_3_4_witness :
  error_ (processDocumentsPipeline (baseEnv healthyProvider) oneGood) = None
  /\ exists cs,
       costStatistics (processDocumentsPipeline (baseEnv healthyProvider) oneGood) = Some cs
       /\ map step (steps cs) = [0; 1; 3; 4].
Proof.
  assert (H : error_ (processDocumentsPipeline (baseEnv healthyProvider) oneGood) = None)
    by (vm_compute; reflexivity).
  split; [exact H|].
  exact (proj2 (completed_run_has_entries_0_1_3_4 (baseEnv healthyProvider) oneGood H)).
Defined.

(** [fenced_object_is_recovered] on a one-property object between two
    pieces of prose. *)
Lemma fenced_object_is_recovered_witness :
  extractJson (baseEnv healthyProvider)
    (PROSE_BEFORE ++ JSON_FENCE_OPEN ++ (LBRACE ++ plainInside ++ RBRACE)
       ++ JSON_FENCE_CLOSE ++ PROSE_AFTER)
  = inr plain.
Proof.
  apply (fenced_object_is_recovered (baseEnv healthyProvider)
           PROSE_BEFORE PROSE_AFTER plainInside plain).
  - vm_compute; reflexivity.
  - vm_compute; reflexivity.
  - vm_compute; reflexivity.
  - eexists; reflexivity.
Defined.

(** [merge_gives_first_surviving_namesake] on two uploads under one
    name, the first of which cannot be converted. *)
Lemma merge_gives_first_surviving_namesake_witness :
  exists d0 d1,
    step0Documents (baseEnv healthyProvider) namesakes = [d0; d1]
    /\ isValidDocument d0 = false
    /\ nth_error (documents (processDocumentsPipeline (baseEnv healthyProvider) namesakes)) 0
       = Some (so_result (processStep1 (baseEnv healthyProvider) 0 d1)).
Proof.
  set (env := baseEnv healthyProvider).
  destruct (step0Documents env namesakes) as [|d0 [|d1 [|d2 l]]] eqn:E;
    try (vm_compute in E; discriminate E).
  exists d0, d1.
  assert (Hd0 : isValidDocument d0 = false)
    by (vm_compute in E; inversion E; reflexivity).
  assert (Hd1 : isValidDocument d1 = true)
    by (vm_compute in E; inversion E; reflexivity).
  assert (Hname : fileName d0 = fileName d1)
    by (vm_compute in E; inversion E; reflexivity).
  assert (Hr : snd (pipelineBody env namesakes)
               = inr (processDocumentsPipeline env namesakes))
    by (vm_compute; reflexivity).
  repeat split; auto.
  destruct (merge_gives_first_surviving_namesake env namesakes _ Hr) as (Hfirst & _).
  rewrite E in Hfirst.
  assert (Hnone : existsb (usableNamesake (fileName d1)) (firstn 1 [d0; d1]) = false).
  { simpl. unfold usableNamesake. now rewrite Hd0, andb_false_r. }
  rewrite (Hfirst 1 d1 0 d0 eq_refl Hd1 Hnone eq_refl Hname).
  unfold step1Position. simpl. now rewrite Hd0.
Defined.
